(** * HomeKit camera mixin: settings derivation and settings writes

    A shallow embedding of [plugins/homekit/src/camera-mixin.ts]: the class
    [CameraMixin] with its two methods [getMixinSettings] (the read path that
    derives the list of setting descriptors) and [putMixinSetting] (the write
    path that normalises and persists one key).

    The persisted [Storage] is a finite map from strings to strings, the
    collaborators that live outside the file (the system manager, the FFmpeg
    argument catalog, the JSON built-ins and the superclass [HomekitMixin])
    are the fields of the class [Platform]. *)

From Stdlib Require Import ZArith Ascii.
From stdpp Require Import base option list strings gmap pretty.

Local Open Scope Z_scope.

(** ** JavaScript values *)

(** [Number.MAX_SAFE_INTEGER]: up to it, in absolute value, every integer is
    a number of the language and prints as its decimal digits. *)
Definition MAX_SAFE_INTEGER : Z := 2 ^ 53 - 1.

Definition safe_integer (n : Z) : bool :=
  bool_decide (- MAX_SAFE_INTEGER ≤ n ≤ MAX_SAFE_INTEGER).

(** Modelled from the spec: the type [SettingValue] of the SDK is imported,
    not declared in the file.  The write operation takes
    [string | bool | sequence<string>], and the design notes add numbers;
    the numbers taken here are the safe integers. *)
Inductive SettingValue : Type :=
  | Str (s : string)
  | Bool (b : bool)
  | StringList (l : list string)
  | Number (n : Z) (safe : Is_true (safe_integer n)).

#[global] Instance SettingValue_eq_dec : EqDecision SettingValue.
Proof.
  intros [s|b|l|n safe] [s'|b'|l'|n' safe']; try (right; discriminate).
  - destruct (decide (s = s')) as [->|]; [by left|right; congruence].
  - destruct (decide (b = b')) as [->|]; [by left|right; congruence].
  - destruct (decide (l = l')) as [->|]; [by left|right; congruence].
  - destruct (decide (n = n')) as [->|]; [|right; congruence].
    left. f_equal. apply proof_irrel.
Defined.

(** What a descriptor can carry in its [value] field, and what [JSON.parse]
    can return. *)
#[local] Unset Elimination Schemes.
Inductive JsValue : Type :=
  | JsNull
  | JsBool (b : bool)
  | JsNum (n : Z)
  | JsStr (s : string)
  | JsArr (elements : list JsValue)
  | JsObj (fields : list (string * JsValue)).
#[local] Set Elimination Schemes.

(** A written value seen as a JavaScript value. *)
Definition inject (v : SettingValue) : JsValue :=
  match v with
  | Str s => JsStr s
  | Bool b => JsBool b
  | StringList l => JsArr (JsStr <$> l)
  | Number n _ => JsNum n
  end.

(** [Array.prototype.join]. *)
Fixpoint join (sep : string) (l : list string) : string :=
  match l with
  | [] => ""
  | [s] => s
  | s :: rest => s +:+ sep +:+ join sep rest
  end.

(** [Boolean.prototype.toString]. *)
Definition bool_toString (b : bool) : string :=
  if b then "true" else "false".

(** [value.toString()] on each kind of written value; a safe integer
    prints as its decimal digits. *)
Definition toString (v : SettingValue) : string :=
  match v with
  | Str s => s
  | Bool b => bool_toString b
  | StringList l => join "," l
  | Number n _ => pretty n
  end.

(** Truthiness of a string: only the empty string is falsy. *)
Definition nonempty (s : string) : bool :=
  match s with
  | EmptyString => false
  | String _ _ => true
  end.

(** ** Completions: a call either returns or throws *)

Inductive outcome (A : Type) : Type :=
  | Returned (a : A)
  | Thrown.
Arguments Returned {A} a.
Arguments Thrown {A}.

#[global] Instance outcome_ret : MRet outcome := @Returned.
#[global] Instance outcome_bind : MBind outcome := fun A B f m =>
  match m with
  | Returned a => f a
  | Thrown => Thrown
  end.

(** [try { body } catch (e) { }] around a computation of a value that starts
    as [fallback]. *)
Definition try_catch {A : Type} (body : outcome A) (fallback : A) : A :=
  match body with
  | Returned a => a
  | Thrown => fallback
  end.

(** Spreading a value into [push(...x)]: arrays give their elements, strings
    their characters, anything else is not iterable. *)
Definition spread (x : JsValue) : outcome (list JsValue) :=
  match x with
  | JsArr elements => Returned elements
  | JsStr s => Returned ((fun c => JsStr (String c EmptyString)) <$> String.list_ascii_of_string s)
  | _ => Thrown
  end.

(** ** The persisted store *)

Abbreviation Storage := (gmap string string).

Definition getItem (key : string) (st : Storage) : option string := st !! key.
Definition setItem (key value : string) (st : Storage) : Storage := <[key := value]> st.
Definition removeItem (key : string) (st : Storage) : Storage := delete key st.

(** Truthiness of what [getItem] returns: an absent item and the empty
    string are falsy. *)
Definition truthy (item : option string) : bool :=
  match item with
  | Some s => nonempty s
  | None => false
  end.

(** [item || fallback] with a string fallback. *)
Definition or_else (item : option string) (fallback : string) : string :=
  match item with
  | Some s => if nonempty s then s else fallback
  | None => fallback
  end.

(** A stored item as a descriptor value: [null] when absent. *)
Definition item_value (item : option string) : JsValue :=
  match item with
  | Some s => JsStr s
  | None => JsNull
  end.

(** [item === 'true']. *)
Definition is_true (item : option string) : bool :=
  bool_decide (item = Some "true").

(** ** Devices, descriptors and the mixin instance *)

(** The members of the SDK enumeration [ScryptedInterface] the file names;
    any other interface a device lists is an [OtherInterface]. *)
Inductive ScryptedInterface : Type :=
  | MotionSensor
  | VideoCameraConfiguration
  | AudioSensor
  | ObjectDetector
  | OnOff
  | Settings
  | OtherInterface (name : string).

#[global] Instance ScryptedInterface_eq_dec : EqDecision ScryptedInterface.
Proof. solve_decision. Defined.

(** [this.interfaces.includes(i)]. *)
Definition includes (interfaces : list ScryptedInterface) (i : ScryptedInterface) : bool :=
  bool_decide (i ∈ interfaces).

(** Modelled from the spec: the SDK types of the two probe results are
    imported, not declared in the file.  A channel is a record with a
    [name]; the object types carry an optional list of [classes]. *)
Record MediaStreamOptions : Type := { name : string }.

Record ObjectDetectionTypes : Type := { classes : option (list string) }.

(** The two probes of the real device; each may throw, and each may return a
    nullish result ([None]). *)
Record Device : Type := {
  getVideoStreamOptions : outcome (option (list MediaStreamOptions));
  getObjectTypes : outcome (option ObjectDetectionTypes);
}.

(** A setting descriptor.  Fields the object literal leaves out are [None]
    (or [false] for the flags). *)
Record Setting : Type := {
  title : string;
  group : option string;
  key : string;
  type : option string;
  deviceFilter : option string;
  value : JsValue;
  placeholder : option string;
  readonly : bool;
  description : string;
  choices : option (list string);
  multiple : bool;
  combobox : bool;
}.

(** The effects of a write besides the store: the reload alert of the
    superclass and the settings event sent to the device manager. *)
Inductive Event : Type :=
  | AlertReload
  | MixinEvent (id mixinProviderNativeId : string) (eventInterface : ScryptedInterface).

Record CameraMixin : Type := {
  id : string;
  mixinProviderNativeId : string;
  interfaces : list ScryptedInterface;
  storage : gmap string string;
  events : list Event;
}.

Definition with_storage (f : gmap string string → gmap string string) (this : CameraMixin) : CameraMixin :=
  {| id := id this; mixinProviderNativeId := mixinProviderNativeId this;
     interfaces := interfaces this; storage := f (storage this);
     events := events this |}.

Definition emit (e : Event) (this : CameraMixin) : CameraMixin :=
  {| id := id this; mixinProviderNativeId := mixinProviderNativeId this;
     interfaces := interfaces this; storage := storage this;
     events := events this ++ [e] |}.

(** An argument catalog: preset names with their tokens, in the order
    [Object.keys] lists them. *)
Abbreviation Catalog := (list (string * list string)).

(** The tokens of the catalog's own preset of that name, if it has one;
    the property access [catalog[name]] itself is [catalog_property]. *)
Fixpoint catalog_get (catalog : Catalog) (name : string) : option (list string) :=
  match catalog with
  | [] => None
  | (n, tokens) :: rest => if decide (n = name) then Some tokens else catalog_get rest name
  end.

(** The names every plain object inherits from [Object.prototype]. *)
Definition Object_prototype_names : list string :=
  [ "constructor"; "__defineGetter__"; "__defineSetter__"; "hasOwnProperty";
    "__lookupGetter__"; "__lookupSetter__"; "isPrototypeOf";
    "propertyIsEnumerable"; "toString"; "valueOf"; "__proto__";
    "toLocaleString" ].

(** What the property access [catalog[name]] gives on a catalog that is a
    plain object: the tokens of an own preset, a function or object that is
    inherited and is no array, or [undefined]. *)
Inductive property : Type :=
  | Own (tokens : list string)
  | Inherited
  | Undefined.

Definition catalog_property (catalog : Catalog) (name : string) : property :=
  match catalog_get catalog name with
  | Some tokens => Own tokens
  | None =>
      if bool_decide (name ∈ Object_prototype_names) then Inherited else Undefined
  end.

(** [Object.keys(catalog)]. *)
Definition Object_keys (catalog : Catalog) : list string := fst <$> catalog.

(** What the file imports and inherits: the system manager, the two
    catalogs of [ffmpeg-hardware-acceleration], the JSON built-ins, and the
    settings, reads and writes of the superclass [HomekitMixin].  A catalog
    is what one call of its getter returns; each call is taken to build the
    catalog anew, so that the [push] of line 260 stays within the write
    that makes it.  [JSON_parse] throws on a text that is not JSON. *)
Class Platform : Type := {
  getDeviceById : string → option Device;
  getH264DecoderArgs : Catalog;
  getH264EncoderArgs : Catalog;
  JSON_parse : string → outcome JsValue;
  JSON_stringify : SettingValue → string;
  (** whether [this.storageSettings.settings[key]] is truthy *)
  storageSettings_settings : string → bool;
  super_getMixinSettings : CameraMixin → outcome (list Setting);
  super_putMixinSetting : string → SettingValue → CameraMixin → outcome CameraMixin;
}.

Definition defaultObjectDetectionContactSensorTimeout : Z := 60.

(** The double quote, for the texts that contain one. *)
Definition dq : string := String "034"%char EmptyString.

(** ** The read path: [getMixinSettings] *)

Section Derivation.
Context `{platform : Platform}.

(** The three channel selectors differ in title, key and description. *)
Definition channel_setting (title key description : string)
    (st : gmap string string) (first : MediaStreamOptions)
    (msos : list MediaStreamOptions) : Setting :=
  {| title := title; group := None; key := key; type := None;
     deviceFilter := None;
     value := JsStr (or_else (getItem key st) (name first));
     placeholder := None; readonly := false;
     description := description;
     choices := Some (name <$> msos);
     multiple := false; combobox := false |}.

Definition streamingChannel_setting :=
  channel_setting "Live Stream" "streamingChannel"
    "The media stream to use when streaming to HomeKit.".

Definition streamingChannelHub_setting :=
  channel_setting "Live Stream (remote streaming and Apple Watch)" "streamingChannelHub"
    "The media stream to use when streaming from outside your home network or to limited capability devices like Apple Watch.".

Definition recordingChannel_setting :=
  channel_setting "Recording Stream" "recordingChannel"
    "The prebuffered media stream for HomeKit Secure Video.".

Definition linkedMotionSensor_setting (this : CameraMixin) : Setting :=
  {| title := "Linked Motion Sensor"; group := None; key := "linkedMotionSensor";
     type := Some "device";
     deviceFilter := Some ("interfaces.includes(" +:+ dq +:+ "MotionSensor" +:+ dq +:+ ")");
     value := JsStr (or_else (getItem "linkedMotionSensor" (storage this)) (id this));
     placeholder := if includes (interfaces this) MotionSensor then None else Some "None";
     readonly := false;
     description := "Set the motion sensor used to trigger HomeKit Secure Video recordings. Defaults to the device provided motion sensor when available.";
     choices := None; multiple := false; combobox := false |}.

Definition transcodingNotices_setting : Setting :=
  {| title := "HomeKit Transcoding"; group := Some "HomeKit Transcoding";
     key := "transcodingNotices"; type := None; deviceFilter := None;
     value := JsStr "WARNING"; placeholder := None; readonly := true;
     description := "Transcoding audio and video for HomeKit is not recommended. Configure your camera using the camera web portal or app to output the correct HomeKit compatible codecs (h264/aac/2000kbps).";
     choices := None; multiple := false; combobox := false |}.

(** A boolean toggle whose value is [(getItem(key) === 'true').toString()]. *)
Definition toggle_setting (title : string) (group : option string)
    (key description : string) (st : gmap string string) : Setting :=
  {| title := title; group := group; key := key; type := Some "boolean";
     deviceFilter := None;
     value := JsStr (bool_toString (is_true (getItem key st)));
     placeholder := None; readonly := false; description := description;
     choices := None; multiple := false; combobox := false |}.

Definition needsExtraData_setting :=
  toggle_setting "Add H264 Extra Data" (Some "HomeKit Transcoding") "needsExtraData"
    "Some cameras do not include H264 extra data in the stream and this causes live streaming to always fail (but recordings may be working). This is a inexpensive video filter and does not perform a transcode. Enable this setting only as necessary.".

Definition transcodeRecording_setting :=
  toggle_setting "Transcode Recording" (Some "HomeKit Transcoding") "transcodeRecording"
    "Use FFMpeg to transcode recordings to a format supported by HomeKit Secure Video.".

Definition transcodeStreaming_setting :=
  toggle_setting "Transcode Streaming" (Some "HomeKit Transcoding") "transcodeStreaming"
    "Use FFMpeg to transcode streaming to a format supported by HomeKit.".

Definition transcodeStreamingHub_setting :=
  toggle_setting "Transcode Remote Streaming and Apple Watch" (Some "HomeKit Transcoding")
    "transcodeStreamingHub"
    "Transcode when remote streaming and streaming to limited capabilitity devices like Apple Watch.".

Definition detectAudio_setting :=
  toggle_setting "Audio Activity Detection" None "detectAudio"
    "Trigger HomeKit Secure Video recording on audio activity.".

(** The value shown for the three-way selector (lines 122-128 and 134). *)
Definition hubStreamingMode_value (st : gmap string string) : string :=
  let value := getItem "hubStreamingMode" st in
  let value :=
    if negb (truthy value) then
      if is_true (getItem "dynamicBitrate" st) then Some "Dynamic Bitrate"
      else if is_true (getItem "transcodeStreamingHub" st) then Some "Transcode"
      else value
    else value in
  or_else value "Disabled".

Definition hubStreamingMode_setting (st : gmap string string) : Setting :=
  {| title := "Transcode Remote Streaming and Apple Watch";
     group := Some "HomeKit Transcoding"; key := "hubStreamingMode";
     type := None; deviceFilter := None;
     value := JsStr (hubStreamingMode_value st);
     placeholder := None; readonly := false;
     description := "The transcode options to use when remote streaming or streaming to limited capabilitity devices like Apple Watch. "
       +:+ dq +:+ "Transcode" +:+ dq +:+ " will use FFmpeg to stream a format supported by HomeKit. "
       +:+ dq +:+ "Dynamic Bitrate" +:+ dq +:+ " adjusts the bitrate of the native camera stream on demand to accomodate available bandwidth. Dynamic Bitrate should be used on secondary streams (sub streams), and not the main stream connected to an NVR, as it will reduce the recording quality.";
     choices := Some ["Disabled"; "Transcode"; "Dynamic Bitrate"];
     multiple := false; combobox := false |}.

(** The two combo boxes over the catalogs. *)
Definition arguments_setting (title key description placeholder : string)
    (catalog : Catalog) (st : gmap string string) : Setting :=
  {| title := title; group := Some "HomeKit Transcoding"; key := key;
     type := None; deviceFilter := None;
     value := item_value (getItem key st);
     placeholder := Some placeholder; readonly := false;
     description := description;
     choices := Some (Object_keys catalog);
     multiple := false; combobox := true |}.

Definition videoDecoderArguments_setting :=
  arguments_setting "Video Decoder Arguments" "videoDecoderArguments"
    "FFmpeg arguments used to decode input video." "-hwaccel auto".

Definition h264EncoderArguments_setting :=
  arguments_setting "H264 Encoder Arguments" "h264EncoderArguments"
    "FFmpeg arguments used to encode h264 video." "-vcodec h264_omx".

(** [JSON.parse] applied to what [getItem] returned: an absent item is
    [null], which [JSON.parse] reads as the text of the literal and
    returns as [null]. *)
Definition JSON_parse_item (item : option string) : outcome JsValue :=
  match item with
  | Some s => JSON_parse s
  | None => Returned JsNull
  end.

(** Lines 195-200: the array starts empty; the parsed item is spread into
    it, and whatever is thrown on the way is swallowed. *)
Definition objectDetectionContactSensors_value (st : gmap string string) : list JsValue :=
  let value := [] in
  try_catch
    (parsed ← JSON_parse_item (getItem "objectDetectionContactSensors" st);
     items ← spread parsed;
     mret (value ++ items))
    value.

Definition objectDetectionContactSensors_setting (classes : list string)
    (st : gmap string string) : Setting :=
  {| title := "Object Detection Sensors"; group := None;
     key := "objectDetectionContactSensors"; type := Some "string";
     deviceFilter := None;
     value := JsArr (objectDetectionContactSensors_value st);
     placeholder := None; readonly := false;
     description := "Create HomeKit occupancy sensors that detect specific people or objects.";
     choices := Some classes; multiple := true; combobox := false |}.

Definition objectDetectionContactSensorTimeout_setting (st : gmap string string) : Setting :=
  {| title := "Object Detection Timeout"; group := None;
     key := "objectDetectionContactSensorTimeout"; type := Some "number";
     deviceFilter := None;
     value :=
       (let item := getItem "objectDetectionContactSensorTimeout" st in
        if truthy item then item_value item
        else JsNum defaultObjectDetectionContactSensorTimeout);
     placeholder := None; readonly := false;
     description := "Duration in seconds the sensor will report as occupied, before resetting.";
     choices := None; multiple := false; combobox := false |}.

Definition statusIndicator_setting (st : gmap string string) : Setting :=
  {| title := "Camera Status Indicator"; group := None; key := "statusIndicator";
     type := Some "boolean"; deviceFilter := None;
     value := JsBool (is_true (getItem "statusIndicator" st));
     placeholder := None; readonly := false;
     description := "Allow HomeKit to control the camera status indicator light.";
     choices := None; multiple := false; combobox := false |}.

(** Lines 19-24: the channel list, empty when the device is missing or
    the probe throws. *)
Definition probe_msos (realDevice : option Device) : option (list MediaStreamOptions) :=
  try_catch
    (match realDevice with
     | Some device => getVideoStreamOptions device
     | None => Thrown
     end)
    (Some []).

(** Lines 190-224: the object detection descriptors; the whole block sits
    in a [try] whose [catch] is empty. *)
Definition objectDetection_settings (realDevice : option Device)
    (st : gmap string string) : list Setting :=
  try_catch
    (types ← match realDevice with
             | Some device => getObjectTypes device
             | None => Thrown
             end;
     let classes := filter (λ c, c ≠ "motion") <$> (types ≫= classes) in
     match classes with
     | Some (c :: cs) =>
         mret [ objectDetectionContactSensors_setting (c :: cs) st;
                objectDetectionContactSensorTimeout_setting st ]
     | _ => mret []
     end)
    [].

(** Line 44: a motion sensor is linked, or the device is one. *)
Definition hasMotionSensor (this : CameraMixin) : bool :=
  truthy (getItem "linkedMotionSensor" (storage this))
  || includes (interfaces this) MotionSensor.

(** Lines 96-97 and 109: whether the two combo boxes are shown. *)
Definition showTranscodeArgs (this : CameraMixin) : bool :=
  let st := storage this in
  let showTranscodeArgs :=
    is_true (getItem "transcodeStreaming" st)
    || is_true (getItem "transcodeStreamingHub" st) in
  if hasMotionSensor this
  then showTranscodeArgs || is_true (getItem "transcodeRecording" st)
  else showTranscodeArgs.

(** Lines 26-55: the channel selectors, for more than one channel. *)
Definition channel_settings (this : CameraMixin)
    (msos : option (list MediaStreamOptions)) : list Setting :=
  let st := storage this in
  match msos with
  | Some (first :: second :: rest) =>
      let msos := first :: second :: rest in
      [ streamingChannel_setting st first msos;
        streamingChannelHub_setting st first msos ]
      ++ (if hasMotionSensor this then [ recordingChannel_setting st first msos ] else [])
  | _ => []
  end.

(** The array [settings] as it stands at the [return] of line 236. *)
Definition own_settings (this : CameraMixin) : list Setting :=
  let st := storage this in
  let realDevice := getDeviceById (id this) in
  let msos := probe_msos realDevice in
  channel_settings this msos
  ++ [ linkedMotionSensor_setting this;
       transcodingNotices_setting;
       needsExtraData_setting st ]
  ++ (if hasMotionSensor this then [ transcodeRecording_setting st ] else [])
  ++ [ transcodeStreaming_setting st ]
  ++ (if includes (interfaces this) VideoCameraConfiguration
      then [ hubStreamingMode_setting st ]
      else [ transcodeStreamingHub_setting st ])
  ++ (if showTranscodeArgs this
      then [ videoDecoderArguments_setting getH264DecoderArgs st;
             h264EncoderArguments_setting getH264EncoderArgs st ]
      else [])
  ++ (if includes (interfaces this) AudioSensor then [ detectAudio_setting st ] else [])
  ++ (if includes (interfaces this) ObjectDetector
      then objectDetection_settings realDevice st
      else [])
  ++ (if includes (interfaces this) OnOff then [ statusIndicator_setting st ] else []).

(** [getMixinSettings]: the own descriptors followed by those of the
    superclass. *)
Definition getMixinSettings (this : CameraMixin) : outcome (list Setting) :=
  let settings := own_settings this in
  inherited ← super_getMixinSettings this;
  mret (settings ++ inherited).
End Derivation.

(** ** The write path: [putMixinSetting] *)

(** Statements run one after the other on the mixin instance. *)
Definition action : Type := CameraMixin → CameraMixin.
Definition skip : action := λ this, this.
Definition andThen (first second : action) : action := λ this, second (first this).
Infix ">>" := andThen (at level 61, left associativity).

Section Write.
Context `{platform : Platform}.

(** Lines 255-259. *)
Definition extraEncoderArgs : list string :=
  [ "-b:v"; "${request.video.max_bit_rate * 2}k";
    "-vf"; "scale=${request.video.width}:${request.video.height}";
    "-r"; "${request.video.fps}" ].

(** Lines 244-247: a decoder preset name is replaced by its joined
    tokens, unless the join is empty; on an inherited name the call of
    [join], which such a value does not have, throws. *)
Definition expand_videoDecoderArguments (value : SettingValue) : outcome SettingValue :=
  let decoderArgs := getH264DecoderArgs in
  match catalog_property decoderArgs (toString value) with
  | Own tokens =>
      let joined := join " " tokens in
      mret (if nonempty joined then Str joined else value)
  | Inherited => Thrown
  | Undefined => mret value
  end.

(** Lines 249-264: an encoder preset name is replaced by its tokens and
    the extra arguments, joined and put between backticks; on an inherited
    name the call of [push], which such a value does not have, throws. *)
Definition expand_h264EncoderArguments (value : SettingValue) : outcome SettingValue :=
  let encoderArgs := getH264EncoderArgs in
  let args := catalog_property encoderArgs (toString value) in
  match args with
  | Own tokens =>
      let args := tokens ++ extraEncoderArgs in
      let substitute := join " " args in
      mret (if nonempty substitute then Str ("`" +:+ substitute +:+ "`") else value)
  | Inherited => Thrown
  | Undefined => mret value
  end.

(** Lines 266-279: the two flags behind the three-way selector. *)
Definition resolve_hubStreamingMode (value : SettingValue) : action :=
  if decide (value = Str "Dynamic Bitrate") then
    with_storage (setItem "dynamicBitrate" "true") >>
    with_storage (removeItem "transcodeStreamingHub")
  else if decide (value = Str "transcodeStreamingHub") then
    with_storage (setItem "transcodeStreamingHub" "true") >>
    with_storage (removeItem "dynamicBitrate")
  else
    with_storage (removeItem "dynamicBitrate") >>
    with_storage (removeItem "transcodeStreamingHub").

(** Lines 266-292: the resolver, the store of the key, and the two
    notifications. *)
Definition store_and_notify (key : string) (value : SettingValue) : action := λ this,
  ((if decide (key = "hubStreamingMode") then resolve_hubStreamingMode value else skip) >>
   (if decide (key = "objectDetectionContactSensors")
    then with_storage (setItem key (JSON_stringify value))
    else with_storage (setItem key (toString value))) >>
   (if decide (key = "detectAudio" ∨ key = "linkedMotionSensor"
               ∨ key = "objectDetectionContactSensors")
    then emit AlertReload else skip) >>
   emit (MixinEvent (id this) (mixinProviderNativeId this) Settings)) this.

(** [putMixinSetting]: the instance after the call, or [Thrown] when an
    expansion throws, which happens before anything is stored or
    signalled. *)
Definition putMixinSetting (key : string) (value : SettingValue)
    (this : CameraMixin) : outcome CameraMixin :=
  if storageSettings_settings key then super_putMixinSetting key value this
  else
    value ← (if decide (key = "videoDecoderArguments")
             then expand_videoDecoderArguments value else mret value);
    value ← (if decide (key = "h264EncoderArguments")
             then expand_h264EncoderArguments value else mret value);
    mret (store_and_notify key value this).
End Write.

(** ** Vocabulary of the properties *)

(** The first descriptor of a list that carries a given key. *)
Fixpoint find_setting (k : string) (settings : list Setting) : option Setting :=
  match settings with
  | [] => None
  | d :: rest => if decide (key d = k) then Some d else find_setting k rest
  end.

(** Every key [getMixinSettings] can emit by itself, in emission order. *)
Definition camera_keys : list string :=
  [ "streamingChannel"; "streamingChannelHub"; "recordingChannel";
    "linkedMotionSensor"; "transcodingNotices"; "needsExtraData";
    "transcodeRecording"; "transcodeStreaming"; "hubStreamingMode";
    "transcodeStreamingHub"; "videoDecoderArguments"; "h264EncoderArguments";
    "detectAudio"; "objectDetectionContactSensors";
    "objectDetectionContactSensorTimeout"; "statusIndicator" ].

(** Every key [getMixinSettings] reads from the store, in reading order. *)
Definition read_keys : list string :=
  [ "streamingChannel"; "streamingChannelHub"; "linkedMotionSensor";
    "recordingChannel"; "needsExtraData"; "transcodeStreaming";
    "transcodeStreamingHub"; "transcodeRecording"; "hubStreamingMode";
    "dynamicBitrate"; "videoDecoderArguments"; "h264EncoderArguments";
    "detectAudio"; "objectDetectionContactSensors";
    "objectDetectionContactSensorTimeout"; "statusIndicator" ].

(** The keys whose write asks the device session to reload (line 288). *)
Definition reload_keys : list string :=
  [ "detectAudio"; "linkedMotionSensor"; "objectDetectionContactSensors" ].

(** [text] occurs in [s] ([String.prototype.includes]). *)
Fixpoint occurs_in (text s : string) : bool :=
  String.prefix text s ||
  match s with
  | EmptyString => false
  | String _ rest => occurs_in text rest
  end.

(** A token is deferred when it holds a placeholder for a field of the
    request. *)
Definition is_deferred (token : string) : bool := occurs_in "${" token.

(** A write that leaves every key but the two flags as it was. *)
Definition only_flags_touched (before after : gmap string string) : Prop :=
  ∀ k, k ≠ "dynamicBitrate" → k ≠ "transcodeStreamingHub" →
    getItem k after = getItem k before.

(** The selector value as the read-path sentence words it: the stored
    entry when there is one, then the two flags, then the default. *)
Definition hubStreamingMode_stated (st : gmap string string) : string :=
  match getItem "hubStreamingMode" st with
  | Some stored => stored
  | None =>
      if is_true (getItem "dynamicBitrate" st) then "Dynamic Bitrate"
      else if is_true (getItem "transcodeStreamingHub" st) then "Transcode"
      else "Disabled"
  end.

(** A value is a valid choice for a descriptor when the descriptor lists
    choices and the value is one of them, or several for a multi-select. *)
Definition valid_choice (d : Setting) (v : SettingValue) : bool :=
  match choices d, v with
  | Some cs, Str c => negb (multiple d) && bool_decide (c ∈ cs)
  | Some cs, StringList l => multiple d && bool_decide (l ⊆ cs)
  | _, _ => false
  end.

(** The call returns, and what it returns satisfies [post]. *)
Definition returns {A : Type} (call : outcome A) (post : A → Prop) : Prop :=
  ∃ a, call = Returned a ∧ post a.

(** The round trip of one key and value on one instance: if the key has a
    descriptor for which the value is a valid choice, then the write
    returns and after it the descriptor of that key carries the value. *)
Definition round_trip `{platform : Platform} (this : CameraMixin) (k : string) (v : SettingValue) : Prop :=
  ∀ d, find_setting k (own_settings this) = Some d →
       valid_choice d v = true →
       returns (putMixinSetting k v this) (λ after,
         value <$> find_setting k (own_settings after) = Some (inject v)).

(** Lines 244-264: what the write makes of the value before it stores it. *)
Definition expansion `{platform : Platform} (k : string) (v : SettingValue) :
    outcome SettingValue :=
  if decide (k = "videoDecoderArguments") then expand_videoDecoderArguments v
  else if decide (k = "h264EncoderArguments") then expand_h264EncoderArguments v
  else mret v.

(** The writes that throw: a combo-box key with a value whose string form
    is no preset of the catalog but a name the catalog object inherits. *)
Definition throws_on `{platform : Platform} (k : string) (v : SettingValue) : Prop :=
  (k = "videoDecoderArguments"
   ∧ catalog_property getH264DecoderArgs (toString v) = Inherited)
  ∨ (k = "h264EncoderArguments"
     ∧ catalog_property getH264EncoderArgs (toString v) = Inherited).

(** ** A sample platform

    A concrete device, catalog and superclass on which the statements below
    are instantiated. *)
Module Sample.
Definition channels : list MediaStreamOptions :=
  [ {| name := "Main" |}; {| name := "Sub" |} ].

Definition camera : Device :=
  {| getVideoStreamOptions := Returned (Some channels);
     getObjectTypes := Returned (Some {| classes := Some ["motion"; "person"; "car"] |}) |}.

Definition decoders : Catalog := [ ("auto", ["-hwaccel"; "auto"]) ].
Definition encoders : Catalog := [ ("omx", ["-vcodec"; "h264_omx"]) ].

(** The text [["person"]]. *)
Definition person_json : string := "[" +:+ dq +:+ "person" +:+ dq +:+ "]".

(** A parser that knows two texts and rejects every other one. *)
Definition parse (text : string) : outcome JsValue :=
  if decide (text = person_json) then Returned (JsArr [JsStr "person"])
  else if decide (text = "null") then Returned JsNull
  else Thrown.

Definition stringify (value : SettingValue) : string :=
  match value with
  | Str s => dq +:+ s +:+ dq
  | Bool b => bool_toString b
  | Number n _ => pretty n
  | StringList l => "[" +:+ join "," ((λ s, dq +:+ s +:+ dq) <$> l) +:+ "]"
  end.

(** The superclass owns the key [standalone] alone. *)
Definition standalone_setting (st : gmap string string) : Setting :=
  toggle_setting "Standalone Accessory Mode" None "standalone"
    "Advertise this to HomeKit as a standalone accessory." st.

Definition platform : Platform :=
  {| getDeviceById := λ _, Some camera;
     getH264DecoderArgs := decoders;
     getH264EncoderArgs := encoders;
     JSON_parse := parse;
     JSON_stringify := stringify;
     storageSettings_settings := λ key, bool_decide (key = "standalone");
     super_getMixinSettings := λ this, Returned [ standalone_setting (storage this) ];
     super_putMixinSetting := λ key value this,
       Returned (with_storage (setItem key (toString value)) this) |}.

Definition mixin (interfaces : list ScryptedInterface) (st : gmap string string) : CameraMixin :=
  {| id := "42"; mixinProviderNativeId := "homekit"; interfaces := interfaces;
     storage := st; events := [] |}.
End Sample.

(** * Properties *)

(** ** The store *)

Lemma getItem_setItem key value st : getItem key (setItem key value st) = Some value.
Proof. apply lookup_insert_eq. Qed.

Lemma getItem_setItem_ne key key' value (st : gmap string string) :
  key ≠ key' → getItem key' (setItem key value st) = getItem key' st.
Proof. intros. by apply lookup_insert_ne. Qed.

Lemma getItem_removeItem key (st : gmap string string) : getItem key (removeItem key st) = None.
Proof. apply lookup_delete_eq. Qed.

Lemma getItem_removeItem_ne key key' (st : gmap string string) :
  key ≠ key' → getItem key' (removeItem key st) = getItem key' st.
Proof. intros. by apply lookup_delete_ne. Qed.

Lemma storage_with_storage f this : storage (with_storage f this) = f (storage this).
Proof. reflexivity. Qed.

Lemma storage_emit e this : storage (emit e this) = storage this.
Proof. reflexivity. Qed.

Create Rewrite HintDb store.
#[local] Hint Rewrite getItem_setItem getItem_removeItem : store.
#[local] Hint Rewrite getItem_setItem_ne getItem_removeItem_ne using congruence : store.

(** Reads of the store after a run of sets and removes. *)
Ltac store := autorewrite with store; try congruence; try done.

(** ** The mode resolver on the write path *)

Section ModeResolver.
Context `{platform : Platform}.

Lemma returns_Returned {A : Type} (a : A) (post : A → Prop) :
  post a → returns (Returned a) post.
Proof. intros Hpost. by exists a. Qed.

(** A write of a key that is neither owned by the superclass nor a combo
    box returns, after lines 266-292 have run on the value as it is. *)
Lemma putMixinSetting_plain this k v :
  storageSettings_settings k = false →
  k ≠ "videoDecoderArguments" → k ≠ "h264EncoderArguments" →
  putMixinSetting k v this = Returned (store_and_notify k v this).
Proof.
  intros Hown ? ?. unfold putMixinSetting. rewrite Hown. by repeat case_decide.
Qed.

Lemma putMixinSetting_videoDecoderArguments this v :
  storageSettings_settings "videoDecoderArguments" = false →
  putMixinSetting "videoDecoderArguments" v this
  = (expanded ← expand_videoDecoderArguments v;
     mret (store_and_notify "videoDecoderArguments" expanded this)).
Proof.
  intros Hown. unfold putMixinSetting. rewrite Hown.
  by repeat (case_decide; try done).
Qed.

Lemma putMixinSetting_h264EncoderArguments this v :
  storageSettings_settings "h264EncoderArguments" = false →
  putMixinSetting "h264EncoderArguments" v this
  = (expanded ← expand_h264EncoderArguments v;
     mret (store_and_notify "h264EncoderArguments" expanded this)).
Proof.
  intros Hown. unfold putMixinSetting. rewrite Hown.
  by repeat (case_decide; try done).
Qed.

(** Lines 266-292 on the selector run the resolver and then store the
    string form of the value under the selector's own key. *)
Lemma put_hubStreamingMode_storage this value :
  storage (store_and_notify "hubStreamingMode" value this)
  = setItem "hubStreamingMode" (toString value)
      (storage (resolve_hubStreamingMode value this)).
Proof.
  unfold store_and_notify.
  repeat (case_decide; try done); exfalso; intuition congruence.
Qed.

Lemma resolve_dynamic_bitrate this :
  storage (resolve_hubStreamingMode (Str "Dynamic Bitrate") this)
  = removeItem "transcodeStreamingHub" (setItem "dynamicBitrate" "true" (storage this)).
Proof. unfold resolve_hubStreamingMode. by case_decide. Qed.

Lemma resolve_other this value :
  value ≠ Str "Dynamic Bitrate" → value ≠ Str "transcodeStreamingHub" →
  storage (resolve_hubStreamingMode value this)
  = removeItem "transcodeStreamingHub" (removeItem "dynamicBitrate" (storage this)).
Proof. intros. unfold resolve_hubStreamingMode. by repeat case_decide. Qed.

(** The resolver touches the two flags and nothing else. *)
Lemma resolve_frame this value k :
  k ≠ "dynamicBitrate" → k ≠ "transcodeStreamingHub" →
  getItem k (storage (resolve_hubStreamingMode value this)) = getItem k (storage this).
Proof.
  intros. unfold resolve_hubStreamingMode.
  repeat case_decide; unfold andThen; rewrite !storage_with_storage; store.
Qed.
End ModeResolver.

Section WriteClaims.
Context `{platform : Platform}.

(** C1, as the code runs.  The claim asks that writing the offered choice
    'Transcode' under 'hubStreamingMode' leaves 'transcodeStreamingHub'
    at "true" and 'dynamicBitrate' absent.  The resolver compares the
    value with the key name 'transcodeStreamingHub' instead of the choice
    'Transcode', so the write falls into the last branch: both flags end
    up absent and the choice is only kept under 'hubStreamingMode'. *)
Theorem write_Transcode_leaves_flag_unset this :
  storageSettings_settings "hubStreamingMode" = false →
  returns (putMixinSetting "hubStreamingMode" (Str "Transcode") this) (λ after,
    getItem "transcodeStreamingHub" (storage after) = None
    ∧ getItem "dynamicBitrate" (storage after) = None
    ∧ getItem "hubStreamingMode" (storage after) = Some "Transcode").
Proof.
  intros Hown. rewrite putMixinSetting_plain by done. apply returns_Returned.
  rewrite put_hubStreamingMode_storage, resolve_other by done.
  simpl toString. repeat split; store.
Qed.

(** The branch that sets the flag is reached by the key name only, a
    string the selector does not offer. *)
Lemma write_key_name_sets_flag this :
  storageSettings_settings "hubStreamingMode" = false →
  returns (putMixinSetting "hubStreamingMode" (Str "transcodeStreamingHub") this) (λ after,
    getItem "transcodeStreamingHub" (storage after) = Some "true"
    ∧ getItem "dynamicBitrate" (storage after) = None).
Proof.
  intros Hown. rewrite putMixinSetting_plain by done. apply returns_Returned.
  rewrite put_hubStreamingMode_storage.
  unfold resolve_hubStreamingMode. repeat (case_decide; try done).
  unfold andThen. rewrite !storage_with_storage. split; store.
Qed.

(** C2.  Whatever the store held before, a write of 'Dynamic Bitrate'
    under 'hubStreamingMode' leaves 'dynamicBitrate' at "true" and
    'transcodeStreamingHub' absent. *)
Theorem write_Dynamic_Bitrate this :
  storageSettings_settings "hubStreamingMode" = false →
  returns (putMixinSetting "hubStreamingMode" (Str "Dynamic Bitrate") this) (λ after,
    getItem "dynamicBitrate" (storage after) = Some "true"
    ∧ getItem "transcodeStreamingHub" (storage after) = None).
Proof.
  intros Hown. rewrite putMixinSetting_plain by done. apply returns_Returned.
  rewrite put_hubStreamingMode_storage, resolve_dynamic_bitrate.
  split; store.
Qed.

(** C3, amended.  A write of 'hubStreamingMode' returns and changes the
    store at the two flags and at 'hubStreamingMode' itself, where it
    leaves the string form of the written value (a string, a boolean, a
    list of strings or a safe integer), and at no other key. *)
Theorem write_hubStreamingMode_frame this value :
  storageSettings_settings "hubStreamingMode" = false →
  returns (putMixinSetting "hubStreamingMode" value this) (λ after,
    getItem "hubStreamingMode" (storage after) = Some (toString value)
    ∧ ∀ k, k ≠ "dynamicBitrate" → k ≠ "transcodeStreamingHub" → k ≠ "hubStreamingMode" →
        getItem k (storage after) = getItem k (storage this)).
Proof.
  intros Hown. rewrite putMixinSetting_plain by done. apply returns_Returned.
  rewrite put_hubStreamingMode_storage. split; [store|].
  intros k ? ? ?. rewrite getItem_setItem_ne by congruence.
  by apply resolve_frame.
Qed.

(** C10.  Any value but the strings 'Dynamic Bitrate' and
    'transcodeStreamingHub' ('Disabled', 'Transcode' and every
    unrecognised value among them; a string, a boolean, a list of strings
    or a safe integer) written under 'hubStreamingMode' removes both flags
    and is then stored, in its string form, under 'hubStreamingMode'. *)
Theorem write_other_mode this value :
  storageSettings_settings "hubStreamingMode" = false →
  value ≠ Str "Dynamic Bitrate" →
  value ≠ Str "transcodeStreamingHub" →
  returns (putMixinSetting "hubStreamingMode" value this) (λ after,
    storage after = setItem "hubStreamingMode" (toString value)
                      (removeItem "transcodeStreamingHub"
                         (removeItem "dynamicBitrate" (storage this)))
    ∧ getItem "dynamicBitrate" (storage after) = None
    ∧ getItem "transcodeStreamingHub" (storage after) = None
    ∧ getItem "hubStreamingMode" (storage after) = Some (toString value)).
Proof.
  intros Hown Hdyn Hkey. rewrite putMixinSetting_plain by done. apply returns_Returned.
  rewrite put_hubStreamingMode_storage, resolve_other by done.
  repeat split; store.
Qed.
End WriteClaims.

Lemma write_Transcode_leaves_flag_unset_witness :
  storageSettings_settings (Platform := Sample.platform) "hubStreamingMode" = false
  ∧ returns (putMixinSetting (platform := Sample.platform)
               "hubStreamingMode" (Str "Transcode")
               (Sample.mixin [VideoCameraConfiguration] {[ "dynamicBitrate" := "true" ]}))
      (λ after,
        getItem "transcodeStreamingHub" (storage after) = None
        ∧ getItem "dynamicBitrate" (storage after) = None
        ∧ getItem "hubStreamingMode" (storage after) = Some "Transcode").
Proof.
  split; [reflexivity|].
  apply (write_Transcode_leaves_flag_unset (platform := Sample.platform)). reflexivity.
Defined.

Lemma write_Dynamic_Bitrate_witness :
  storageSettings_settings (Platform := Sample.platform) "hubStreamingMode" = false
  ∧ returns (putMixinSetting (platform := Sample.platform)
               "hubStreamingMode" (Str "Dynamic Bitrate")
               (Sample.mixin [VideoCameraConfiguration] {[ "transcodeStreamingHub" := "true" ]}))
      (λ after,
        getItem "dynamicBitrate" (storage after) = Some "true"
        ∧ getItem "transcodeStreamingHub" (storage after) = None).
Proof.
  split; [reflexivity|].
  apply (write_Dynamic_Bitrate (platform := Sample.platform)). reflexivity.
Defined.

(** C3, as stated, fails: on an empty store a write of 'Disabled' returns
    and leaves an entry under 'hubStreamingMode', a key that is neither of
    the flags. *)
Lemma write_hubStreamingMode_is_persisted :
  returns (putMixinSetting (platform := Sample.platform)
             "hubStreamingMode" (Str "Disabled")
             (Sample.mixin [VideoCameraConfiguration] ∅))
    (λ after, ¬ only_flags_touched ∅ (storage after)).
Proof.
  eexists. split; [reflexivity|].
  intros Honly. specialize (Honly "hubStreamingMode").
  vm_compute in Honly. by specialize (Honly ltac:(discriminate) ltac:(discriminate)).
Qed.

Lemma write_hubStreamingMode_frame_witness :
  storageSettings_settings (Platform := Sample.platform) "hubStreamingMode" = false
  ∧ returns (putMixinSetting (platform := Sample.platform)
               "hubStreamingMode" (Number 2 I)
               (Sample.mixin [VideoCameraConfiguration] {[ "needsExtraData" := "true" ]}))
      (λ after,
        getItem "hubStreamingMode" (storage after) = Some "2"
        ∧ ∀ k, k ≠ "dynamicBitrate" → k ≠ "transcodeStreamingHub" → k ≠ "hubStreamingMode" →
            getItem k (storage after)
            = getItem k (storage (Sample.mixin [VideoCameraConfiguration]
                                    {[ "needsExtraData" := "true" ]}))).
Proof.
  split; [reflexivity|].
  apply (write_hubStreamingMode_frame (platform := Sample.platform)). reflexivity.
Defined.

Lemma write_other_mode_witness :
  storageSettings_settings (Platform := Sample.platform) "hubStreamingMode" = false
  ∧ Str "Disabled" ≠ Str "Dynamic Bitrate"
  ∧ Str "Disabled" ≠ Str "transcodeStreamingHub"
  ∧ returns (putMixinSetting (platform := Sample.platform)
               "hubStreamingMode" (Str "Disabled")
               (Sample.mixin [VideoCameraConfiguration] {[ "dynamicBitrate" := "true" ]}))
      (λ after,
        storage after
        = setItem "hubStreamingMode" "Disabled"
            (removeItem "transcodeStreamingHub"
               (removeItem "dynamicBitrate" {[ "dynamicBitrate" := "true" ]}))
        ∧ getItem "dynamicBitrate" (storage after) = None
        ∧ getItem "transcodeStreamingHub" (storage after) = None
        ∧ getItem "hubStreamingMode" (storage after) = Some "Disabled").
Proof.
  split; [reflexivity|]. split; [discriminate|]. split; [discriminate|].
  apply (write_other_mode (platform := Sample.platform)); [reflexivity|discriminate|discriminate].
Defined.

(** ** The argument expander *)

Lemma nonempty_append_r a b : nonempty b = true → nonempty (a +:+ b) = true.
Proof. destruct a; [done|]. intros _. reflexivity. Qed.

(** A join that ends in a non-empty run of tokens is not the empty string
    when the run's own join is not. *)
Lemma nonempty_join_app sep tokens extra :
  nonempty (join sep extra) = true → nonempty (join sep (tokens ++ extra)) = true.
Proof.
  intros Hextra. induction tokens as [|token tokens IH]; [done|].
  change ((token :: tokens) ++ extra) with (token :: (tokens ++ extra)).
  destruct (tokens ++ extra) as [|next more] eqn:Hrest.
  - apply app_eq_nil in Hrest as [_ ->]. done.
  - change (join sep (token :: next :: more))
      with (token +:+ sep +:+ join sep (next :: more)).
    by do 2 apply nonempty_append_r.
Qed.

Lemma append_assoc (a b c : string) : (a +:+ b) +:+ c = a +:+ b +:+ c.
Proof.
  induction a as [|x a IH]; [done|].
  change (String x ((a +:+ b) +:+ c) = String x (a +:+ b +:+ c)). by f_equal.
Qed.

(** Two neighbouring tokens join like the one token made of both. *)
Lemma join_pair sep tokens flag argument rest :
  join sep (tokens ++ flag :: argument :: rest)
  = join sep (tokens ++ (flag +:+ sep +:+ argument) :: rest).
Proof.
  induction tokens as [|token tokens IH].
  - destruct rest as [|next rest]; [done|].
    change (join sep ([] ++ flag :: argument :: next :: rest))
      with (flag +:+ sep +:+ argument +:+ sep +:+ join sep (next :: rest)).
    change (join sep ([] ++ (flag +:+ sep +:+ argument) :: next :: rest))
      with ((flag +:+ sep +:+ argument) +:+ sep +:+ join sep (next :: rest)).
    by rewrite !append_assoc.
  - change ((token :: tokens) ++ ?l) with (token :: (tokens ++ l)).
    destruct tokens as [|token' tokens]; simpl in *; by rewrite IH.
Qed.

Lemma join_three_pairs sep tokens f1 a1 f2 a2 f3 a3 :
  join sep (tokens ++ [f1; a1; f2; a2; f3; a3])
  = join sep (tokens ++ [f1 +:+ sep +:+ a1; f2 +:+ sep +:+ a2; f3 +:+ sep +:+ a3]).
Proof.
  rewrite (join_pair sep tokens f1 a1).
  rewrite (cons_middle (f1 +:+ sep +:+ a1) tokens), app_assoc.
  rewrite (join_pair sep _ f2 a2).
  rewrite (cons_middle (f2 +:+ sep +:+ a2) (tokens ++ _)), app_assoc.
  rewrite (join_pair sep _ f3 a3).
  by rewrite <- !app_assoc.
Qed.

Section Expander.
Context `{platform : Platform}.

(** Lines 266-292 on a key other than the selector and the multi-select
    store the string form of the value. *)
Lemma store_and_notify_storage this k v :
  k ≠ "hubStreamingMode" → k ≠ "objectDetectionContactSensors" →
  storage (store_and_notify k v this) = setItem k (toString v) (storage this).
Proof. intros ? ?. unfold store_and_notify. by repeat case_decide. Qed.

Lemma catalog_property_Own catalog name tokens :
  catalog_get catalog name = Some tokens → catalog_property catalog name = Own tokens.
Proof. unfold catalog_property. by intros ->. Qed.

Lemma catalog_property_Inherited catalog name :
  catalog_get catalog name = None → name ∈ Object_prototype_names →
  catalog_property catalog name = Inherited.
Proof. unfold catalog_property. intros -> Hname. by rewrite bool_decide_eq_true_2. Qed.

Lemma catalog_property_Undefined catalog name :
  catalog_get catalog name = None → name ∉ Object_prototype_names →
  catalog_property catalog name = Undefined.
Proof. unfold catalog_property. intros -> Hname. by rewrite bool_decide_eq_false_2. Qed.

Lemma expand_h264EncoderArguments_preset name tokens :
  catalog_get getH264EncoderArgs name = Some tokens →
  expand_h264EncoderArguments (Str name)
  = Returned (Str ("`" +:+ join " " (tokens ++ extraEncoderArgs) +:+ "`")).
Proof.
  intros Hpreset. unfold expand_h264EncoderArguments. simpl toString.
  rewrite (catalog_property_Own _ _ _ Hpreset).
  cbv zeta. by rewrite nonempty_join_app.
Qed.

Lemma expand_videoDecoderArguments_preset name tokens :
  catalog_get getH264DecoderArgs name = Some tokens →
  nonempty (join " " tokens) = true →
  expand_videoDecoderArguments (Str name) = Returned (Str (join " " tokens)).
Proof.
  intros Hpreset Hjoin. unfold expand_videoDecoderArguments. simpl toString.
  rewrite (catalog_property_Own _ _ _ Hpreset). cbv zeta. by rewrite Hjoin.
Qed.

(** C7.  A cataloged encoder preset name expands to one string between
    backticks: the preset's own tokens, joined by spaces with what the
    code appends to them.  What is appended reads as three arguments, the
    bit rate (twice the requested maximum), the rescale filter (to the
    requested width and height) and the frame rate (the requested one);
    in the code these are six array elements, an option flag before each
    of exactly three deferred ones.  The write returns and stores the
    string. *)
Theorem expand_cataloged_encoder_preset this name tokens :
  storageSettings_settings "h264EncoderArguments" = false →
  catalog_get getH264EncoderArgs name = Some tokens →
  let bit_rate := "-b:v ${request.video.max_bit_rate * 2}k" in
  let rescale := "-vf scale=${request.video.width}:${request.video.height}" in
  let frame_rate := "-r ${request.video.fps}" in
  let expanded := "`" +:+ join " " (tokens ++ [bit_rate; rescale; frame_rate]) +:+ "`" in
  expand_h264EncoderArguments (Str name) = Returned (Str expanded)
  ∧ returns (putMixinSetting "h264EncoderArguments" (Str name) this) (λ after,
      getItem "h264EncoderArguments" (storage after) = Some expanded)
  ∧ expanded = "`" +:+ join " " (tokens ++ extraEncoderArgs) +:+ "`"
  ∧ filter is_deferred extraEncoderArgs
    = [ "${request.video.max_bit_rate * 2}k";
        "scale=${request.video.width}:${request.video.height}";
        "${request.video.fps}" ]
  ∧ Forall is_deferred [bit_rate; rescale; frame_rate].
Proof.
  intros Hown Hpreset bit_rate rescale frame_rate expanded.
  assert (Hsix : expanded = "`" +:+ join " " (tokens ++ extraEncoderArgs) +:+ "`").
  { subst expanded. unfold extraEncoderArgs. by rewrite join_three_pairs. }
  assert (Hexpand : expand_h264EncoderArguments (Str name) = Returned (Str expanded)).
  { rewrite Hsix. exact (expand_h264EncoderArguments_preset name tokens Hpreset). }
  split; [done|]. split.
  { rewrite putMixinSetting_h264EncoderArguments, Hexpand by done.
    apply returns_Returned. rewrite store_and_notify_storage by done. store. }
  split; [done|]. split; [by vm_compute|].
  repeat constructor.
Qed.

(** A value that names no preset of the encoder catalog and no inherited
    property comes out of the expansion as it went in, without backticks,
    and the write returns and stores its string form. *)
Lemma expand_unknown_encoder_preset this value :
  storageSettings_settings "h264EncoderArguments" = false →
  catalog_get getH264EncoderArgs (toString value) = None →
  toString value ∉ Object_prototype_names →
  expand_h264EncoderArguments value = Returned value
  ∧ returns (putMixinSetting "h264EncoderArguments" value this) (λ after,
      getItem "h264EncoderArguments" (storage after) = Some (toString value)).
Proof.
  intros Hown Hunknown Hplain.
  assert (Hexpand : expand_h264EncoderArguments value = Returned value).
  { unfold expand_h264EncoderArguments.
    by rewrite (catalog_property_Undefined _ _ Hunknown Hplain). }
  split; [done|].
  rewrite putMixinSetting_h264EncoderArguments, Hexpand by done.
  apply returns_Returned. rewrite store_and_notify_storage by done. store.
Qed.

(** C8, as the code runs.  The claim asks that every name that is not in
    the encoder catalog passes through unchanged.  The catalog is indexed
    as a plain object, so a value such as 'constructor', which names no
    preset but a property every object inherits, is taken for a token
    array: the [push] of line 260 throws, and the write stores nothing
    and signals nothing. *)
Theorem inherited_encoder_name_throws this value :
  storageSettings_settings "h264EncoderArguments" = false →
  catalog_get getH264EncoderArgs (toString value) = None →
  toString value ∈ Object_prototype_names →
  expand_h264EncoderArguments value = Thrown
  ∧ putMixinSetting "h264EncoderArguments" value this = Thrown.
Proof.
  intros Hown Hunknown Hinherited.
  assert (Hexpand : expand_h264EncoderArguments value = Thrown).
  { unfold expand_h264EncoderArguments.
    by rewrite (catalog_property_Inherited _ _ Hunknown Hinherited). }
  split; [done|].
  by rewrite putMixinSetting_h264EncoderArguments, Hexpand.
Qed.
End Expander.

Lemma expand_cataloged_encoder_preset_witness :
  storageSettings_settings (Platform := Sample.platform) "h264EncoderArguments" = false
  ∧ catalog_get (getH264EncoderArgs (Platform := Sample.platform)) "omx"
    = Some ["-vcodec"; "h264_omx"]
  ∧ expand_h264EncoderArguments (platform := Sample.platform) (Str "omx")
    = Returned (Str "`-vcodec h264_omx -b:v ${request.video.max_bit_rate * 2}k -vf scale=${request.video.width}:${request.video.height} -r ${request.video.fps}`").
Proof.
  split; [reflexivity|]. split; [reflexivity|].
  apply (expand_cataloged_encoder_preset (platform := Sample.platform)
           (Sample.mixin [] ∅) "omx" ["-vcodec"; "h264_omx"]); reflexivity.
Defined.

Lemma inherited_encoder_name_throws_witness :
  storageSettings_settings (Platform := Sample.platform) "h264EncoderArguments" = false
  ∧ catalog_get (getH264EncoderArgs (Platform := Sample.platform)) "constructor" = None
  ∧ putMixinSetting (platform := Sample.platform)
      "h264EncoderArguments" (Str "constructor") (Sample.mixin [] ∅)
    = Thrown.
Proof.
  split; [reflexivity|]. split; [reflexivity|].
  apply (inherited_encoder_name_throws (platform := Sample.platform)
           (Sample.mixin [] ∅) (Str "constructor")); [reflexivity..|].
  apply (bool_decide_unpack _). by vm_compute.
Defined.

(** The instance the specification names: the free-form arguments
    [-vcodec copy] are no preset and no inherited name, and are stored as
    they are. *)
Lemma vcodec_copy_stored_unchanged :
  expand_h264EncoderArguments (platform := Sample.platform) (Str "-vcodec copy")
  = Returned (Str "-vcodec copy")
  ∧ returns (putMixinSetting (platform := Sample.platform)
               "h264EncoderArguments" (Str "-vcodec copy") (Sample.mixin [] ∅))
      (λ after, getItem "h264EncoderArguments" (storage after) = Some "-vcodec copy").
Proof.
  apply (expand_unknown_encoder_preset (platform := Sample.platform)
           (Sample.mixin [] ∅) (Str "-vcodec copy")); [reflexivity..|].
  apply (bool_decide_unpack _). by vm_compute.
Qed.

(** ** The derived descriptor list *)

Lemma find_setting_app k l1 l2 :
  find_setting k (l1 ++ l2)
  = match find_setting k l1 with
    | Some d => Some d
    | None => find_setting k l2
    end.
Proof. induction l1 as [|d l1 IH]; [done|]. simpl. by case_decide. Qed.

Lemma find_setting_Some k l d : find_setting k l = Some d → d ∈ l ∧ key d = k.
Proof.
  induction l as [|d' l IH]; [done|]. simpl. case_decide.
  - intros [= <-]. split; [left|done].
  - intros Hfind. destruct (IH Hfind). split; [by right|done].
Qed.

(** In a list without duplicate keys a descriptor is found by its key. *)
Lemma find_setting_elem_of l d :
  NoDup (key <$> l) → d ∈ l → find_setting (key d) l = Some d.
Proof.
  induction l as [|d' l IH]; intros Hnodup Hd; [by apply elem_of_nil in Hd|].
  rewrite fmap_cons in Hnodup. apply NoDup_cons in Hnodup as [Hfresh Hnodup].
  simpl. apply elem_of_cons in Hd as [->|Hd]; [by case_decide|].
  case_decide as Hkey; [|by apply IH].
  exfalso. apply Hfresh. rewrite Hkey. apply list_elem_of_fmap. by exists d.
Qed.

Lemma NoDup_camera_keys : NoDup camera_keys.
Proof. apply (bool_decide_unpack _); by vm_compute. Qed.

Section DerivedList.
Context `{platform : Platform}.

(** The object detection block is empty or is the multi-select followed
    by its timeout, and which of the two does not depend on the store. *)
Lemma objectDetection_settings_cases realDevice :
  (∀ st, objectDetection_settings realDevice st = [])
  ∨ ∃ classes, classes ≠ []
      ∧ ∀ st, objectDetection_settings realDevice st
              = [ objectDetectionContactSensors_setting classes st;
                  objectDetectionContactSensorTimeout_setting st ].
Proof.
  unfold objectDetection_settings.
  destruct realDevice as [device|]; [|by left].
  destruct (getObjectTypes device) as [types|]; [|by left]. simpl.
  destruct (filter _ <$> _) as [[|c cs]|]; [by left| |by left].
  right. by exists (c :: cs).
Qed.

Lemma objectDetection_settings_reported device types reported st :
  getObjectTypes device = Returned (Some types) →
  classes types = Some reported →
  filter (λ c, c ≠ "motion") reported ≠ [] →
  objectDetection_settings (Some device) st
  = [ objectDetectionContactSensors_setting (filter (λ c, c ≠ "motion") reported) st;
      objectDetectionContactSensorTimeout_setting st ].
Proof.
  intros Htypes Hclasses Hsome. unfold objectDetection_settings.
  rewrite Htypes. cbn. rewrite Hclasses. cbn.
  by destruct (filter (λ c, c ≠ "motion") reported).
Qed.

Lemma own_keys_sublist this : key <$> own_settings this `sublist_of` camera_keys.
Proof.
  unfold own_settings. rewrite !fmap_app.
  change camera_keys with
    ([ "streamingChannel"; "streamingChannelHub"; "recordingChannel" ]
     ++ [ "linkedMotionSensor"; "transcodingNotices"; "needsExtraData" ]
     ++ [ "transcodeRecording" ]
     ++ [ "transcodeStreaming" ]
     ++ [ "hubStreamingMode"; "transcodeStreamingHub" ]
     ++ [ "videoDecoderArguments"; "h264EncoderArguments" ]
     ++ [ "detectAudio" ]
     ++ [ "objectDetectionContactSensors"; "objectDetectionContactSensorTimeout" ]
     ++ [ "statusIndicator" ]).
  repeat apply sublist_app.
  - unfold channel_settings.
    destruct (probe_msos _) as [[|first [|second rest]]|]; simpl;
      try destruct (hasMotionSensor this); simpl; by repeat constructor.
  - by repeat constructor.
  - destruct (hasMotionSensor this); by repeat constructor.
  - by repeat constructor.
  - destruct (includes _ _); by repeat constructor.
  - destruct (showTranscodeArgs this); by repeat constructor.
  - destruct (includes _ _); by repeat constructor.
  - destruct (includes _ _); [|by repeat constructor].
    destruct (objectDetection_settings_cases (getDeviceById (id this)))
      as [->|(classes & _ & ->)]; by repeat constructor.
  - destruct (includes _ _); by repeat constructor.
Qed.

(** The own descriptors carry pairwise different keys. *)
Lemma NoDup_own_keys this : NoDup (key <$> own_settings this).
Proof. eapply sublist_NoDup; [apply NoDup_camera_keys|apply own_keys_sublist]. Qed.

Lemma own_keys_camera_keys this d : d ∈ own_settings this → key d ∈ camera_keys.
Proof.
  intros Hd. eapply elem_of_sublist; [|apply own_keys_sublist].
  apply list_elem_of_fmap. by exists d.
Qed.

(** C6.  One derivation pass yields no two descriptors with the same
    key: the own descriptors never repeat a key, and the whole list does
    not either as long as the descriptors inherited from the superclass
    do not repeat a key and use none of the keys of this file. *)
Theorem getMixinSettings_NoDup_keys this :
  NoDup (key <$> own_settings this)
  ∧ ∀ inherited,
      super_getMixinSettings this = Returned inherited →
      NoDup (key <$> inherited) →
      (∀ d, d ∈ inherited → key d ∉ camera_keys) →
      ∃ settings, getMixinSettings this = Returned settings
                  ∧ NoDup (key <$> settings).
Proof.
  split; [apply NoDup_own_keys|].
  intros inherited Hsuper Hnodup Hforeign.
  exists (own_settings this ++ inherited). split.
  - unfold getMixinSettings. by rewrite Hsuper.
  - rewrite fmap_app. apply NoDup_app. split; [apply NoDup_own_keys|]. split; [|done].
    intros k Hown Hinherited.
    apply list_elem_of_fmap in Hown as (d & -> & Hd).
    apply list_elem_of_fmap in Hinherited as (d' & Hkey & Hd').
    apply (Hforeign d' Hd'). rewrite <- Hkey. by apply (own_keys_camera_keys this).
Qed.
End DerivedList.

Lemma getMixinSettings_NoDup_keys_witness :
  let this := Sample.mixin
    [MotionSensor; VideoCameraConfiguration; AudioSensor; ObjectDetector; OnOff]
    {[ "transcodeStreaming" := "true" ]} in
  ∃ settings, getMixinSettings (platform := Sample.platform) this = Returned settings
              ∧ NoDup (key <$> settings).
Proof.
  intros this.
  apply (getMixinSettings_NoDup_keys (platform := Sample.platform) this)
    with (inherited := [Sample.standalone_setting (storage this)]).
  - reflexivity.
  - apply (bool_decide_unpack _); by vm_compute.
  - intros d Hd. apply list_elem_of_singleton in Hd as ->.
    apply (bool_decide_unpack _); by vm_compute.
Defined.

(** Splits a membership in the own descriptors into the descriptors it
    can be, block by block, and drops those whose key is not the one of
    [Hkey]. *)
Ltac which_setting H Hkey :=
  unfold own_settings, channel_settings in H;
  repeat first
    [ apply elem_of_app in H as [H|H]
    | apply elem_of_cons in H as [->|H]
    | apply elem_of_nil in H; destruct H
    | match type of H with
      | _ ∈ (if ?c then _ else _) => destruct c eqn:?
      | _ ∈ match ?m with _ => _ end => destruct m as [[|? [|? ?]]|] eqn:?
      | _ ∈ objectDetection_settings ?realDevice _ =>
          let Hblock := fresh "Hblock" in
          destruct (objectDetection_settings_cases realDevice)
            as [Hblock|(? & ? & Hblock)];
          rewrite Hblock in H
      end ];
  try discriminate Hkey.

Section ReadClaims.
Context `{platform : Platform}.

Lemma getMixinSettings_returns this inherited :
  super_getMixinSettings this = Returned inherited →
  getMixinSettings this = Returned (own_settings this ++ inherited).
Proof. intros Hsuper. unfold getMixinSettings. by rewrite Hsuper. Qed.

(** An own descriptor is the first of its key in the whole list. *)
Lemma find_own_setting this d inherited :
  d ∈ own_settings this →
  find_setting (key d) (own_settings this ++ inherited) = Some d.
Proof.
  intros Hd. rewrite find_setting_app.
  by rewrite (find_setting_elem_of _ d (NoDup_own_keys this) Hd).
Qed.

Lemma hubStreamingMode_setting_elem_of this :
  includes (interfaces this) VideoCameraConfiguration = true →
  hubStreamingMode_setting (storage this) ∈ own_settings this.
Proof. intros Hnative. unfold own_settings. rewrite Hnative. set_solver. Qed.

(** C5, amended.  With native stream configuration the descriptor of
    'hubStreamingMode' shows the stored 'hubStreamingMode' entry when one
    is present and not the empty string; otherwise 'Dynamic Bitrate' when
    'dynamicBitrate' is "true" (whatever 'transcodeStreamingHub' holds),
    otherwise 'Transcode' when 'transcodeStreamingHub' is "true",
    otherwise 'Disabled'. *)
Theorem hubStreamingMode_shown this inherited :
  includes (interfaces this) VideoCameraConfiguration = true →
  super_getMixinSettings this = Returned inherited →
  ∃ settings d,
    getMixinSettings this = Returned settings
    ∧ find_setting "hubStreamingMode" settings = Some d
    ∧ let st := storage this in
      let stored := getItem "hubStreamingMode" st in
      (∀ s, stored = Some s → s ≠ "" → value d = JsStr s)
      ∧ (stored = None ∨ stored = Some "" →
         (getItem "dynamicBitrate" st = Some "true" →
            value d = JsStr "Dynamic Bitrate")
         ∧ (getItem "dynamicBitrate" st ≠ Some "true" →
            getItem "transcodeStreamingHub" st = Some "true" →
            value d = JsStr "Transcode")
         ∧ (getItem "dynamicBitrate" st ≠ Some "true" →
            getItem "transcodeStreamingHub" st ≠ Some "true" →
            value d = JsStr "Disabled")).
Proof.
  intros Hnative Hsuper.
  exists (own_settings this ++ inherited), (hubStreamingMode_setting (storage this)).
  split; [by apply getMixinSettings_returns|].
  split.
  { by apply (find_own_setting this (hubStreamingMode_setting (storage this)) inherited),
      hubStreamingMode_setting_elem_of. }
  simpl. unfold hubStreamingMode_value, is_true. split.
  - intros s -> Hs. simpl. by destruct s.
  - intros Hstored.
    assert (truthy (getItem "hubStreamingMode" (storage this)) = false) as ->
      by (by destruct Hstored as [->| ->]).
    simpl. repeat split; intros; repeat case_bool_decide; try done.
    all: by destruct Hstored as [->| ->].
Qed.

(** Whatever carries the key of the multi-select among the own
    descriptors is the multi-select of the object detection block. *)
Lemma objectDetectionContactSensors_inv this d :
  d ∈ own_settings this →
  key d = "objectDetectionContactSensors" →
  ∃ classes, classes ≠ []
    ∧ d = objectDetectionContactSensors_setting classes (storage this).
Proof. intros Hd Hkey. which_setting Hd Hkey. by eexists. Qed.

(** A stored text that does not parse, or no stored text at all, leaves
    the array of line 195 empty. *)
Lemma objectDetectionContactSensors_value_empty (st : gmap string string) :
  getItem "objectDetectionContactSensors" st = None
  ∨ (∃ text, getItem "objectDetectionContactSensors" st = Some text
             ∧ JSON_parse text = Thrown) →
  objectDetectionContactSensors_value st = [].
Proof.
  unfold objectDetectionContactSensors_value.
  intros [->|(text & -> & Hparse)]; simpl; [done|]. by rewrite Hparse.
Qed.

(** C9.  When the stored 'objectDetectionContactSensors' entry is absent
    or is not valid JSON, the derivation returns whenever the superclass
    does, every descriptor it emits for that key is a multi-select whose
    value is the empty sequence, and that descriptor is emitted as soon
    as the device is an object detector that reports a class other than
    "motion". *)
Theorem non_JSON_sensors_read_as_empty this :
  getItem "objectDetectionContactSensors" (storage this) = None
  ∨ (∃ text, getItem "objectDetectionContactSensors" (storage this) = Some text
             ∧ JSON_parse text = Thrown) →
  (∀ inherited, super_getMixinSettings this = Returned inherited →
     getMixinSettings this = Returned (own_settings this ++ inherited))
  ∧ (∀ d, d ∈ own_settings this → key d = "objectDetectionContactSensors" →
       value d = JsArr [] ∧ multiple d = true)
  ∧ (∀ device types reported,
       includes (interfaces this) ObjectDetector = true →
       getDeviceById (id this) = Some device →
       getObjectTypes device = Returned (Some types) →
       classes types = Some reported →
       filter (λ c, c ≠ "motion") reported ≠ [] →
       ∃ d, find_setting "objectDetectionContactSensors" (own_settings this) = Some d
            ∧ value d = JsArr [] ∧ multiple d = true).
Proof.
  intros Hstored.
  assert (Hinv : ∀ d, d ∈ own_settings this → key d = "objectDetectionContactSensors" →
                      value d = JsArr [] ∧ multiple d = true).
  { intros d Hd Hkey.
    destruct (objectDetectionContactSensors_inv this d Hd Hkey) as (cs & _ & ->).
    simpl. by rewrite objectDetectionContactSensors_value_empty. }
  split; [apply getMixinSettings_returns|]. split; [done|].
  intros device types reported Hdetector Hdevice Htypes Hclasses Hsome.
  set (sensors := objectDetectionContactSensors_setting
                    (filter (λ c, c ≠ "motion") reported) (storage this)).
  assert (Hin : sensors ∈ own_settings this).
  { unfold own_settings. rewrite Hdetector.
    rewrite Hdevice, (objectDetection_settings_reported device types reported) by done.
    rewrite !elem_of_app, !elem_of_cons. tauto. }
  exists sensors. split; [|by apply Hinv].
  exact (find_setting_elem_of _ sensors (NoDup_own_keys this) Hin).
Qed.
End ReadClaims.

(** C5, as stated, fails on a stored entry that is the empty string: the
    entry is present, and what is shown is the default. *)
Lemma empty_hubStreamingMode_entry_not_shown :
  let this := Sample.mixin [VideoCameraConfiguration] {[ "hubStreamingMode" := "" ]} in
  hubStreamingMode_stated (storage this) = ""
  ∧ value <$> find_setting "hubStreamingMode" (own_settings (platform := Sample.platform) this)
    = Some (JsStr "Disabled")
  ∧ value <$> find_setting "hubStreamingMode" (own_settings (platform := Sample.platform) this)
    ≠ Some (JsStr (hubStreamingMode_stated (storage this))).
Proof. by vm_compute. Qed.

Lemma hubStreamingMode_shown_witness :
  let this := Sample.mixin [VideoCameraConfiguration]
    {[ "dynamicBitrate" := "true"; "transcodeStreamingHub" := "true" ]} in
  includes (interfaces this) VideoCameraConfiguration = true
  ∧ super_getMixinSettings (Platform := Sample.platform) this
    = Returned [Sample.standalone_setting (storage this)]
  ∧ ∃ settings d,
      getMixinSettings (platform := Sample.platform) this = Returned settings
      ∧ find_setting "hubStreamingMode" settings = Some d
      ∧ value d = JsStr "Dynamic Bitrate".
Proof.
  intros this. split; [reflexivity|]. split; [reflexivity|].
  destruct (hubStreamingMode_shown (platform := Sample.platform) this
              [Sample.standalone_setting (storage this)] eq_refl eq_refl)
    as (settings & d & Hreturned & Hfound & _ & Hflags).
  exists settings, d. split; [exact Hreturned|]. split; [exact Hfound|].
  apply Hflags; [left|]; reflexivity.
Defined.

Lemma non_JSON_sensors_read_as_empty_witness :
  let this := Sample.mixin [ObjectDetector]
    {[ "objectDetectionContactSensors" := "person,car" ]} in
  JSON_parse (Platform := Sample.platform) "person,car" = Thrown
  ∧ ∃ d, find_setting "objectDetectionContactSensors"
           (own_settings (platform := Sample.platform) this) = Some d
         ∧ value d = JsArr [] ∧ multiple d = true.
Proof.
  intros this. split; [reflexivity|].
  assert (Hstored :
    getItem "objectDetectionContactSensors" (storage this) = None
    ∨ (∃ text, getItem "objectDetectionContactSensors" (storage this) = Some text
               ∧ JSON_parse (Platform := Sample.platform) text = Thrown)).
  { right. exists "person,car". split; reflexivity. }
  destruct (non_JSON_sensors_read_as_empty (platform := Sample.platform) this Hstored)
    as (_ & _ & Hemitted).
  apply (Hemitted Sample.camera {| classes := Some ["motion"; "person"; "car"] |}
           ["motion"; "person"; "car"]); try reflexivity.
  by vm_compute.
Defined.

(** ** Writing and reading back *)

Section RoundTrip.
Context `{platform : Platform}.

(** The derivation reads the identifier, the interfaces and the store of
    the instance, and nothing else. *)
Lemma own_settings_ext this this' :
  id this' = id this → interfaces this' = interfaces this →
  storage this' = storage this →
  own_settings this' = own_settings this.
Proof.
  destruct this, this'. simpl. intros -> -> ->. reflexivity.
Qed.

(** Lines 266-292 leave the identifier and the interfaces alone. *)
Lemma put_id_interfaces this k v :
  id (store_and_notify k v this) = id this
  ∧ interfaces (store_and_notify k v this) = interfaces this.
Proof.
  unfold store_and_notify, resolve_hubStreamingMode. by repeat case_decide.
Qed.

Lemma put_objectDetectionContactSensors_storage this v :
  storage (store_and_notify "objectDetectionContactSensors" v this)
  = setItem "objectDetectionContactSensors" (JSON_stringify v) (storage this).
Proof. unfold store_and_notify. by repeat (case_decide; try done). Qed.

(** The instance after lines 266-292, as far as the derivation can tell. *)
Lemma own_settings_put this k v :
  own_settings (store_and_notify k v this)
  = own_settings (with_storage (λ _, storage (store_and_notify k v this)) this).
Proof.
  destruct (put_id_interfaces this k v) as [Hid Hinterfaces].
  symmetry. by apply own_settings_ext.
Qed.

Lemma hasMotionSensor_ext this this' :
  interfaces this' = interfaces this →
  getItem "linkedMotionSensor" (storage this')
  = getItem "linkedMotionSensor" (storage this) →
  hasMotionSensor this' = hasMotionSensor this.
Proof. unfold hasMotionSensor. by intros -> ->. Qed.

(** Where the channel selectors sit. *)
Lemma channel_settings_elem_of this first second rest d :
  probe_msos (getDeviceById (id this)) = Some (first :: second :: rest) →
  d = streamingChannel_setting (storage this) first (first :: second :: rest)
  ∨ d = streamingChannelHub_setting (storage this) first (first :: second :: rest)
  ∨ (hasMotionSensor this = true
     ∧ d = recordingChannel_setting (storage this) first (first :: second :: rest)) →
  d ∈ own_settings this.
Proof.
  intros Hmsos Hd. unfold own_settings, channel_settings. rewrite Hmsos.
  apply elem_of_app. left.
  destruct Hd as [->|[->|[-> ->]]]; rewrite ?elem_of_app, !elem_of_cons; tauto.
Qed.

Lemma objectDetectionContactSensors_setting_elem_of this classes :
  includes (interfaces this) ObjectDetector = true →
  (∀ st, objectDetection_settings (getDeviceById (id this)) st
         = [ objectDetectionContactSensors_setting classes st;
             objectDetectionContactSensorTimeout_setting st ]) →
  objectDetectionContactSensors_setting classes (storage this) ∈ own_settings this.
Proof.
  intros Hdetector Hblock. unfold own_settings. rewrite Hdetector, Hblock.
  rewrite !elem_of_app, !elem_of_cons. tauto.
Qed.

(** The value a channel selector shows once its key holds a non-empty
    string. *)
Lemma channel_setting_value title k description st first msos c :
  c ≠ "" →
  value (channel_setting title k description (setItem k c st) first msos) = JsStr c.
Proof.
  intros Hc. unfold channel_setting; simpl. unfold or_else.
  rewrite getItem_setItem. by destruct c.
Qed.
End RoundTrip.

Section RoundTripClaims.
Context `{platform : Platform}.

Lemma found_by_key this d k :
  d ∈ own_settings this → key d = k → find_setting k (own_settings this) = Some d.
Proof. intros Hd <-. apply find_setting_elem_of; [apply NoDup_own_keys|done]. Qed.

(** The three channel selectors give back a written non-empty string. *)
Lemma round_trip_channel this k c :
  storageSettings_settings k = false →
  k ∈ ["streamingChannel"; "streamingChannelHub"; "recordingChannel"] →
  c ≠ "" →
  round_trip this k (Str c).
Proof.
  intros Hown Hk Hc d Hfind _.
  apply find_setting_Some in Hfind as [Hd Hkey].
  assert (Hplain : k ≠ "videoDecoderArguments" ∧ k ≠ "h264EncoderArguments"
                   ∧ k ≠ "hubStreamingMode" ∧ k ≠ "objectDetectionContactSensors"
                   ∧ k ≠ "linkedMotionSensor").
  { repeat (apply elem_of_cons in Hk as [->|Hk]); [..|by apply elem_of_nil in Hk].
    all: by repeat split. }
  destruct Hplain as (? & ? & ? & ? & ?).
  rewrite putMixinSetting_plain by done. apply returns_Returned.
  rewrite own_settings_put.
  set (this' := with_storage _ this).
  assert (Hstorage : storage this' = setItem k c (storage this)).
  { subst this'. rewrite storage_with_storage. by rewrite store_and_notify_storage. }
  assert (Hmotion : hasMotionSensor this' = hasMotionSensor this).
  { apply hasMotionSensor_ext; [done|]. rewrite Hstorage. store. }
  assert (Hvalue : ∀ title description first msos,
            value (channel_setting title k description (storage this') first msos)
            = JsStr c).
  { intros. rewrite Hstorage. by apply channel_setting_value. }
  repeat (apply elem_of_cons in Hk as [->|Hk]); [..|by apply elem_of_nil in Hk].
  all: which_setting Hd Hkey.
  all: match goal with
       | Hmsos : probe_msos _ = Some (?first :: ?second :: ?rest) |- _ =>
           pose proof (channel_settings_elem_of this' first second rest) as Hin;
           specialize (λ d, Hin d Hmsos)
       end.
  - erewrite found_by_key; [|apply Hin; left; reflexivity|reflexivity].
    exact (f_equal Some (Hvalue _ _ _ _)).
  - erewrite found_by_key; [|apply Hin; right; left; reflexivity|reflexivity].
    exact (f_equal Some (Hvalue _ _ _ _)).
  - erewrite found_by_key;
      [|apply Hin; right; right; split; [congruence|reflexivity]|reflexivity].
    exact (f_equal Some (Hvalue _ _ _ _)).
Qed.

(** The three-way selector gives back a written non-empty string. *)
Lemma round_trip_hubStreamingMode this c :
  storageSettings_settings "hubStreamingMode" = false →
  c ≠ "" →
  round_trip this "hubStreamingMode" (Str c).
Proof.
  intros Hown Hc d Hfind _.
  apply find_setting_Some in Hfind as [Hd Hkey].
  rewrite putMixinSetting_plain by done. apply returns_Returned.
  rewrite own_settings_put.
  set (this' := with_storage _ this).
  which_setting Hd Hkey.
  rewrite (found_by_key this' (hubStreamingMode_setting (storage this')) "hubStreamingMode");
    [|by apply hubStreamingMode_setting_elem_of|done].
  subst this'. rewrite storage_with_storage, put_hubStreamingMode_storage.
  simpl. unfold hubStreamingMode_value. rewrite getItem_setItem.
  by destruct c.
Qed.

(** The multi-select gives back a written list as soon as the JSON
    built-ins read back the text they wrote for it. *)
Lemma round_trip_objectDetectionContactSensors this l :
  storageSettings_settings "objectDetectionContactSensors" = false →
  JSON_parse (JSON_stringify (StringList l)) = Returned (JsArr (JsStr <$> l)) →
  round_trip this "objectDetectionContactSensors" (StringList l).
Proof.
  intros Hown Hjson d Hfind _.
  apply find_setting_Some in Hfind as [Hd Hkey].
  rewrite putMixinSetting_plain by done. apply returns_Returned.
  rewrite own_settings_put.
  set (this' := with_storage _ this).
  which_setting Hd Hkey.
  match goal with
  | Hblock : ∀ st, objectDetection_settings _ st = [ _ ?classes st; _ ] |- _ =>
      rewrite (found_by_key this'
                 (objectDetectionContactSensors_setting classes (storage this'))
                 "objectDetectionContactSensors");
        [|by apply objectDetectionContactSensors_setting_elem_of|done]
  end.
  subst this'. rewrite storage_with_storage, put_objectDetectionContactSensors_storage.
  simpl. unfold objectDetectionContactSensors_value. rewrite getItem_setItem.
  simpl. by rewrite Hjson.
Qed.

(** Whatever carries the key of a combo box among the own descriptors is
    that combo box, and shows the stored item. *)
Lemma arguments_setting_inv this d k :
  d ∈ own_settings this →
  key d = k →
  k = "videoDecoderArguments" ∨ k = "h264EncoderArguments" →
  value d = item_value (getItem k (storage this)).
Proof.
  intros Hd Hkey [->| ->]; by which_setting Hd Hkey.
Qed.

(** C4, amended.  For the single-choice selectors 'streamingChannel',
    'streamingChannelHub', 'recordingChannel' and 'hubStreamingMode', a
    non-empty string that is a choice of the key's descriptor is shown
    again by the descriptor of that key after it was written; the
    multi-select 'objectDetectionContactSensors' shows a written list
    again when [JSON.parse] reads back what [JSON.stringify] wrote for
    it.  The two combo boxes do not give a preset name back: after a
    cataloged encoder preset name was written, the descriptor of
    'h264EncoderArguments' shows the expanded arguments between
    backticks, and after a decoder preset name with a non-empty join,
    the descriptor of 'videoDecoderArguments' shows its joined tokens.
    Each of these writes returns. *)
Theorem round_trip_of_choices this :
  (∀ k c,
     storageSettings_settings k = false →
     k ∈ [ "streamingChannel"; "streamingChannelHub"; "recordingChannel";
           "hubStreamingMode" ] →
     c ≠ "" →
     round_trip this k (Str c))
  ∧ (∀ l,
       storageSettings_settings "objectDetectionContactSensors" = false →
       JSON_parse (JSON_stringify (StringList l)) = Returned (JsArr (JsStr <$> l)) →
       round_trip this "objectDetectionContactSensors" (StringList l))
  ∧ (∀ name tokens,
       storageSettings_settings "h264EncoderArguments" = false →
       catalog_get getH264EncoderArgs name = Some tokens →
       returns (putMixinSetting "h264EncoderArguments" (Str name) this) (λ after,
         ∀ d, find_setting "h264EncoderArguments" (own_settings after) = Some d →
              value d = JsStr ("`" +:+ join " " (tokens ++ extraEncoderArgs) +:+ "`")))
  ∧ (∀ name tokens,
       storageSettings_settings "videoDecoderArguments" = false →
       catalog_get getH264DecoderArgs name = Some tokens →
       nonempty (join " " tokens) = true →
       returns (putMixinSetting "videoDecoderArguments" (Str name) this) (λ after,
         ∀ d, find_setting "videoDecoderArguments" (own_settings after) = Some d →
              value d = JsStr (join " " tokens))).
Proof.
  repeat split.
  - intros k c Hown Hk Hc.
    apply elem_of_cons in Hk as [->|Hk];
      [apply round_trip_channel; [done|by left|done]|].
    apply elem_of_cons in Hk as [->|Hk];
      [apply round_trip_channel; [done|by right; left|done]|].
    apply elem_of_cons in Hk as [->|Hk];
      [apply round_trip_channel; [done|by right; right; left|done]|].
    apply list_elem_of_singleton in Hk as ->.
    by apply round_trip_hubStreamingMode.
  - intros l Hown Hjson. by apply round_trip_objectDetectionContactSensors.
  - intros name tokens Hown Hpreset.
    rewrite putMixinSetting_h264EncoderArguments by done.
    rewrite (expand_h264EncoderArguments_preset name tokens Hpreset).
    apply returns_Returned. intros d Hfind.
    apply find_setting_Some in Hfind as [Hd Hkey].
    rewrite (arguments_setting_inv _ d "h264EncoderArguments" Hd Hkey) by by right.
    rewrite store_and_notify_storage by done.
    by rewrite getItem_setItem.
  - intros name tokens Hown Hpreset Hjoin.
    rewrite putMixinSetting_videoDecoderArguments by done.
    rewrite (expand_videoDecoderArguments_preset name tokens Hpreset Hjoin).
    apply returns_Returned. intros d Hfind.
    apply find_setting_Some in Hfind as [Hd Hkey].
    rewrite (arguments_setting_inv _ d "videoDecoderArguments" Hd Hkey) by by left.
    rewrite store_and_notify_storage by done.
    by rewrite getItem_setItem.
Qed.
End RoundTripClaims.

(** C4, as stated, fails for the key it singles out: 'omx' is a choice of
    the 'h264EncoderArguments' descriptor, and after it was written the
    descriptor shows the expanded arguments, not 'omx'. *)
Lemma encoder_preset_name_not_read_back :
  ¬ round_trip (platform := Sample.platform)
      (Sample.mixin [] {[ "transcodeStreaming" := "true" ]})
      "h264EncoderArguments" (Str "omx").
Proof.
  intros Hround.
  destruct (Hround
    (h264EncoderArguments_setting Sample.encoders {[ "transcodeStreaming" := "true" ]})
    eq_refl eq_refl) as (after & Hreturned & Hshown).
  vm_compute in Hreturned. injection Hreturned as <-.
  vm_compute in Hshown. discriminate Hshown.
Qed.

(** A channel whose name is the empty string is a choice that is not read
    back either: the selector falls back to the first channel. *)
Lemma empty_channel_name_not_read_back :
  let nameless : Platform :=
    {| getDeviceById := λ _, Some
         {| getVideoStreamOptions := Returned (Some [ {| name := "Main" |}; {| name := "" |} ]);
            getObjectTypes := Thrown |};
       getH264DecoderArgs := Sample.decoders;
       getH264EncoderArgs := Sample.encoders;
       JSON_parse := Sample.parse;
       JSON_stringify := Sample.stringify;
       storageSettings_settings := λ _, false;
       super_getMixinSettings := λ _, Returned [];
       super_putMixinSetting := λ _ _ this, Returned this |} in
  ¬ round_trip (platform := nameless) (Sample.mixin [] ∅) "streamingChannel" (Str "").
Proof.
  intros nameless Hround.
  destruct (Hround
    (streamingChannel_setting ∅ {| name := "Main" |} [ {| name := "Main" |}; {| name := "" |} ])
    eq_refl eq_refl) as (after & Hreturned & Hshown).
  vm_compute in Hreturned. injection Hreturned as <-.
  vm_compute in Hshown. discriminate Hshown.
Qed.

Lemma round_trip_of_choices_witness :
  let this := Sample.mixin [VideoCameraConfiguration; ObjectDetector] ∅ in
  returns (putMixinSetting (platform := Sample.platform)
             "streamingChannelHub" (Str "Sub") this)
    (λ after,
      value <$> find_setting "streamingChannelHub"
                  (own_settings (platform := Sample.platform) after)
      = Some (JsStr "Sub"))
  ∧ returns (putMixinSetting (platform := Sample.platform)
               "objectDetectionContactSensors" (StringList ["person"]) this)
      (λ after,
        value <$> find_setting "objectDetectionContactSensors"
                    (own_settings (platform := Sample.platform) after)
        = Some (JsArr [JsStr "person"])).
Proof.
  intros this.
  destruct (round_trip_of_choices (platform := Sample.platform) this)
    as (Hselectors & Hmultiple & _ & _).
  split.
  - apply (Hselectors "streamingChannelHub" "Sub" eq_refl
             ltac:(right; left) ltac:(discriminate)
             (streamingChannelHub_setting ∅ {| name := "Main" |} Sample.channels));
      reflexivity.
  - apply (Hmultiple ["person"] eq_refl eq_refl
             (objectDetectionContactSensors_setting (platform := Sample.platform)
                ["person"; "car"] ∅));
      reflexivity.
Defined.

(** * Further properties of the write path *)

(** Turns a goal on map lookups into one on [getItem]. *)
Ltac as_getItem :=
  repeat match goal with
  | |- context [ @lookup string string (gmap string string) _ ?k ?m ] =>
      change (m !! k) with (getItem k m)
  end.

Section WritePath.
Context `{platform : Platform}.

Lemma events_resolve_hubStreamingMode value this :
  events (resolve_hubStreamingMode value this) = events this.
Proof. unfold resolve_hubStreamingMode. by repeat case_decide. Qed.

Lemma resolve_key_name this :
  storage (resolve_hubStreamingMode (Str "transcodeStreamingHub") this)
  = removeItem "dynamicBitrate" (setItem "transcodeStreamingHub" "true" (storage this)).
Proof. unfold resolve_hubStreamingMode. by repeat case_decide. Qed.

(** A write this class handles itself is the expansion of the value
    followed by lines 266-292. *)
Lemma putMixinSetting_expansion this k v :
  storageSettings_settings k = false →
  putMixinSetting k v this
  = (expanded ← expansion k v; mret (store_and_notify k expanded this)).
Proof.
  intros Hown. unfold putMixinSetting, expansion. rewrite Hown.
  repeat case_decide; subst; try done.
  all: by destruct (expand_videoDecoderArguments _).
Qed.

(** The expansion throws on the writes singled out by [throws_on], and on
    no other. *)
Lemma expansion_Thrown k v : expansion k v = Thrown ↔ throws_on k v.
Proof.
  unfold expansion, throws_on, expand_videoDecoderArguments, expand_h264EncoderArguments.
  repeat case_decide; subst; try done.
  1: destruct (catalog_property getH264DecoderArgs (toString v)).
  4: destruct (catalog_property getH264EncoderArgs (toString v)).
  all: unfold mret, outcome_ret; simpl; split; intros Hthrown;
    try discriminate Hthrown; try (left; by split); try (right; by split).
  all: by destruct Hthrown as [[? ?]|[? ?]].
Qed.

Lemma expansion_Returned k v : ¬ throws_on k v → ∃ expanded, expansion k v = Returned expanded.
Proof.
  intros Hreturns. destruct (expansion k v) as [expanded|] eqn:Hexpansion; [by eexists|].
  by apply expansion_Thrown in Hexpansion.
Qed.

Lemma expansion_plain k v :
  k ≠ "videoDecoderArguments" → k ≠ "h264EncoderArguments" →
  expansion k v = Returned v.
Proof. intros ? ?. unfold expansion. by repeat case_decide. Qed.

Lemma events_store_and_notify this k v :
  events (store_and_notify k v this)
  = events this
    ++ (if bool_decide (k ∈ reload_keys) then [AlertReload] else [])
    ++ [MixinEvent (id this) (mixinProviderNativeId this) Settings].
Proof.
  unfold store_and_notify, andThen, skip.
  assert (Hreload : ∀ A (x y : A),
            (if decide (k = "detectAudio" ∨ k = "linkedMotionSensor"
                        ∨ k = "objectDetectionContactSensors") then x else y)
            = if bool_decide (k ∈ reload_keys) then x else y).
  { intros A x y. unfold reload_keys. case_decide as Hk; case_bool_decide as Hin; try done.
    - exfalso. apply Hin. rewrite !elem_of_cons. tauto.
    - exfalso. apply Hk. rewrite !elem_of_cons in Hin.
      destruct Hin as [?|[?|[?|Hin]]]; [tauto..|by apply elem_of_nil in Hin]. }
  rewrite Hreload.
  repeat case_decide; case_bool_decide; simpl;
    rewrite ?events_resolve_hubStreamingMode; by rewrite <- ?app_assoc.
Qed.

(** A write this class handles itself either throws, which it does exactly
    on a combo-box key whose value names an inherited property and before
    anything is signalled, or returns after one settings event of the
    mixin, with a reload asked for just before it exactly when the key is
    'detectAudio', 'linkedMotionSensor' or 'objectDetectionContactSensors';
    nothing else is signalled. *)
Theorem write_notifies this k v :
  storageSettings_settings k = false →
  (throws_on k v → putMixinSetting k v this = Thrown)
  ∧ (¬ throws_on k v →
     returns (putMixinSetting k v this) (λ after,
       events after
       = events this
         ++ (if bool_decide (k ∈ reload_keys) then [AlertReload] else [])
         ++ [MixinEvent (id this) (mixinProviderNativeId this) Settings])).
Proof.
  intros Hown. rewrite putMixinSetting_expansion by done. split.
  - intros Hthrows. apply expansion_Thrown in Hthrows. by rewrite Hthrows.
  - intros Hreturns. destruct (expansion_Returned k v Hreturns) as [expanded ->].
    apply returns_Returned, events_store_and_notify.
Qed.

(** Lines 266-292 on a key other than 'hubStreamingMode' leave every
    other key of the store as it was. *)
Lemma store_other_key this k v k' :
  k ≠ "hubStreamingMode" → k' ≠ k →
  getItem k' (storage (store_and_notify k v this)) = getItem k' (storage this).
Proof.
  intros Hmode Hother.
  destruct (decide (k = "objectDetectionContactSensors")) as [->|?];
    [rewrite put_objectDetectionContactSensors_storage; store|].
  rewrite store_and_notify_storage by done. store.
Qed.

(** A write of a key other than 'hubStreamingMode' that does not throw
    returns and changes the store at that key and nowhere else.  What it
    leaves there is the string form of the value for a key other than the
    combo boxes and 'objectDetectionContactSensors', the JSON text for
    'objectDetectionContactSensors', and for a combo box the string form
    of what the value expands to. *)
Theorem write_changes_one_key this k v :
  storageSettings_settings k = false →
  k ≠ "hubStreamingMode" →
  ¬ throws_on k v →
  returns (putMixinSetting k v this) (λ after,
    (∀ k', k' ≠ k → getItem k' (storage after) = getItem k' (storage this))
    ∧ (k ≠ "videoDecoderArguments" → k ≠ "h264EncoderArguments" →
       k ≠ "objectDetectionContactSensors" →
       getItem k (storage after) = Some (toString v))
    ∧ (k = "objectDetectionContactSensors" →
       getItem k (storage after) = Some (JSON_stringify v))
    ∧ (k ≠ "objectDetectionContactSensors" →
       ∃ expanded, expansion k v = Returned expanded
                   ∧ getItem k (storage after) = Some (toString expanded))).
Proof.
  intros Hown Hmode Hreturns. rewrite putMixinSetting_expansion by done.
  destruct (expansion_Returned k v Hreturns) as [expanded Hexpanded].
  rewrite Hexpanded. apply returns_Returned. split; [|split; [|split]].
  - intros k' Hother. by apply store_other_key.
  - intros ? ? ?. rewrite expansion_plain in Hexpanded by done.
    injection Hexpanded as <-. rewrite store_and_notify_storage by done. store.
  - intros ->. rewrite expansion_plain in Hexpanded by done.
    injection Hexpanded as <-. rewrite put_objectDetectionContactSensors_storage. store.
  - intros ?. exists expanded. split; [done|].
    rewrite store_and_notify_storage by done. store.
Qed.

(** After a write of 'hubStreamingMode', which always returns, whatever
    the value and the store before, at most one of the two flags is
    present: the resolver never leaves 'dynamicBitrate' and
    'transcodeStreamingHub' set together. *)
Theorem write_mode_flags_exclusive this v :
  storageSettings_settings "hubStreamingMode" = false →
  returns (putMixinSetting "hubStreamingMode" v this) (λ after,
    getItem "dynamicBitrate" (storage after) = None
    ∨ getItem "transcodeStreamingHub" (storage after) = None).
Proof.
  intros Hown. rewrite putMixinSetting_plain by done. apply returns_Returned.
  rewrite put_hubStreamingMode_storage.
  destruct (decide (v = Str "Dynamic Bitrate")) as [->|?];
    [rewrite resolve_dynamic_bitrate; right; store|].
  destruct (decide (v = Str "transcodeStreamingHub")) as [->|?];
    [rewrite resolve_key_name; left; store|].
  rewrite resolve_other by done. left; store.
Qed.

(** What the resolver leaves in the store, as a function of the store. *)
Lemma resolve_storage v :
  ∃ flags : gmap string string → gmap string string,
    (∀ this, storage (resolve_hubStreamingMode v this) = flags (storage this))
    ∧ (∀ st st' j, (j ≠ "dynamicBitrate" → j ≠ "transcodeStreamingHub" →
                    getItem j st = getItem j st') →
                   getItem j (flags st) = getItem j (flags st')).
Proof.
  destruct (decide (v = Str "Dynamic Bitrate")) as [->|?].
  { exists (λ st, removeItem "transcodeStreamingHub" (setItem "dynamicBitrate" "true" st)).
    split; [intros; apply resolve_dynamic_bitrate|].
    intros st st' j Hj.
    destruct (decide (j = "transcodeStreamingHub")) as [->|?]; [store|].
    destruct (decide (j = "dynamicBitrate")) as [->|?]; [store|].
    autorewrite with store. by apply Hj. }
  destruct (decide (v = Str "transcodeStreamingHub")) as [->|?].
  { exists (λ st, removeItem "dynamicBitrate" (setItem "transcodeStreamingHub" "true" st)).
    split; [intros; apply resolve_key_name|].
    intros st st' j Hj.
    destruct (decide (j = "dynamicBitrate")) as [->|?]; [store|].
    destruct (decide (j = "transcodeStreamingHub")) as [->|?]; [store|].
    autorewrite with store. by apply Hj. }
  exists (λ st, removeItem "transcodeStreamingHub" (removeItem "dynamicBitrate" st)).
  split; [intros; by apply resolve_other|].
  intros st st' j Hj.
  destruct (decide (j = "transcodeStreamingHub")) as [->|?]; [store|].
  destruct (decide (j = "dynamicBitrate")) as [->|?]; [store|].
  autorewrite with store. by apply Hj.
Qed.

Lemma store_twice this k v1 v2 :
  storage (store_and_notify k v2 (store_and_notify k v1 this))
  = storage (store_and_notify k v2 this).
Proof.
  destruct (decide (k = "hubStreamingMode")) as [->|?].
  { rewrite !put_hubStreamingMode_storage.
    destruct (resolve_storage v2) as (flags & Hflags & Hlocal).
    rewrite !Hflags. rewrite put_hubStreamingMode_storage.
    apply map_eq. intros j. as_getItem.
    destruct (decide (j = "hubStreamingMode")) as [->|?]; [store|].
    rewrite !getItem_setItem_ne by done. apply Hlocal. intros ? ?.
    rewrite getItem_setItem_ne by done. by apply resolve_frame. }
  destruct (decide (k = "objectDetectionContactSensors")) as [->|?];
    [rewrite !put_objectDetectionContactSensors_storage; apply insert_insert_eq|].
  rewrite !store_and_notify_storage by done. apply insert_insert_eq.
Qed.

(** The last write wins: when neither write throws, writing a key twice
    leaves the store the second write alone would have left, also for
    'hubStreamingMode', whose flags keep no trace of the mode written
    before.  In particular a write repeated with the same value changes
    nothing in the store. *)
Theorem last_write_wins this k v1 v2 :
  storageSettings_settings k = false →
  ¬ throws_on k v1 → ¬ throws_on k v2 →
  returns (putMixinSetting k v1 this) (λ first,
    returns (putMixinSetting k v2 first) (λ second,
      returns (putMixinSetting k v2 this) (λ alone,
        storage second = storage alone))).
Proof.
  intros Hown Hfirst Hsecond.
  destruct (expansion_Returned k v1 Hfirst) as [expanded1 Hexpanded1].
  destruct (expansion_Returned k v2 Hsecond) as [expanded2 Hexpanded2].
  rewrite putMixinSetting_expansion, Hexpanded1 by done. apply returns_Returned.
  rewrite putMixinSetting_expansion, Hexpanded2 by done. apply returns_Returned.
  rewrite putMixinSetting_expansion, Hexpanded2 by done. apply returns_Returned.
  apply store_twice.
Qed.

(** What a write under 'videoDecoderArguments' does: it stores the joined
    tokens of the decoder preset the value names, without backticks and
    without extra arguments; it stores the value as it is when the value
    names a preset whose tokens join to the empty string, or names neither
    a preset nor an inherited property; and it throws, storing nothing,
    when the value names no preset but an inherited property such as
    'constructor'. *)
Theorem write_videoDecoderArguments this v :
  storageSettings_settings "videoDecoderArguments" = false →
  let stored s := returns (putMixinSetting "videoDecoderArguments" v this) (λ after,
                    getItem "videoDecoderArguments" (storage after) = Some s) in
  (∀ tokens, catalog_get getH264DecoderArgs (toString v) = Some tokens →
             join " " tokens ≠ "" → stored (join " " tokens))
  ∧ (∀ tokens, catalog_get getH264DecoderArgs (toString v) = Some tokens →
               join " " tokens = "" → stored (toString v))
  ∧ (catalog_get getH264DecoderArgs (toString v) = None →
     toString v ∉ Object_prototype_names → stored (toString v))
  ∧ (catalog_get getH264DecoderArgs (toString v) = None →
     toString v ∈ Object_prototype_names →
     putMixinSetting "videoDecoderArguments" v this = Thrown).
Proof.
  intros Hown stored. subst stored. cbv beta.
  rewrite putMixinSetting_videoDecoderArguments by done.
  unfold expand_videoDecoderArguments.
  repeat split.
  - intros tokens Hpreset Hjoin. rewrite (catalog_property_Own _ _ _ Hpreset). cbv zeta.
    apply returns_Returned. rewrite store_and_notify_storage, getItem_setItem by done.
    by destruct (join " " tokens).
  - intros tokens Hpreset Hjoin. rewrite (catalog_property_Own _ _ _ Hpreset). cbv zeta.
    apply returns_Returned. rewrite store_and_notify_storage, getItem_setItem by done.
    by rewrite Hjoin.
  - intros Hunknown Hplain. rewrite (catalog_property_Undefined _ _ Hunknown Hplain).
    apply returns_Returned. by rewrite store_and_notify_storage, getItem_setItem.
  - intros Hunknown Hinherited.
    by rewrite (catalog_property_Inherited _ _ Hunknown Hinherited).
Qed.
End WritePath.

Lemma write_notifies_witness :
  let this := Sample.mixin [AudioSensor] ∅ in
  putMixinSetting (platform := Sample.platform) "h264EncoderArguments" (Str "toString") this
  = Thrown
  ∧ returns (putMixinSetting (platform := Sample.platform) "detectAudio" (Bool true) this)
      (λ after, events after = [AlertReload; MixinEvent "42" "homekit" Settings])
  ∧ returns (putMixinSetting (platform := Sample.platform) "needsExtraData" (Bool true) this)
      (λ after, events after = [MixinEvent "42" "homekit" Settings]).
Proof.
  intros this. split; [|split].
  - apply (write_notifies (platform := Sample.platform) this
             "h264EncoderArguments" (Str "toString") eq_refl).
    right. split; reflexivity.
  - apply (write_notifies (platform := Sample.platform) this "detectAudio" (Bool true)
             eq_refl).
    intros [[Hkey _]|[Hkey _]]; discriminate Hkey.
  - apply (write_notifies (platform := Sample.platform) this "needsExtraData" (Bool true)
             eq_refl).
    intros [[Hkey _]|[Hkey _]]; discriminate Hkey.
Defined.

Lemma write_changes_one_key_witness :
  let this := Sample.mixin [] {[ "transcodeStreaming" := "true" ]} in
  returns (putMixinSetting (platform := Sample.platform)
             "objectDetectionContactSensorTimeout" (Number 90 I) this)
    (λ after,
      getItem "transcodeStreaming" (storage after) = Some "true"
      ∧ getItem "objectDetectionContactSensorTimeout" (storage after) = Some "90").
Proof.
  intros this.
  destruct (write_changes_one_key (platform := Sample.platform) this
              "objectDetectionContactSensorTimeout" (Number 90 I) eq_refl
              ltac:(discriminate)) as (after & Hreturned & Hframe & Hstored & _).
  { intros [[Hkey _]|[Hkey _]]; discriminate Hkey. }
  exists after. split; [exact Hreturned|]. split.
  - exact (Hframe "transcodeStreaming" ltac:(discriminate)).
  - apply Hstored; discriminate.
Defined.

Lemma write_mode_flags_exclusive_witness :
  let this := Sample.mixin [VideoCameraConfiguration]
    {[ "dynamicBitrate" := "true"; "transcodeStreamingHub" := "true" ]} in
  returns (putMixinSetting (platform := Sample.platform)
             "hubStreamingMode" (Str "Dynamic Bitrate") this)
    (λ after,
      getItem "dynamicBitrate" (storage after) = None
      ∨ getItem "transcodeStreamingHub" (storage after) = None).
Proof.
  intros this.
  apply (write_mode_flags_exclusive (platform := Sample.platform) this). reflexivity.
Defined.

Lemma last_write_wins_witness :
  let this := Sample.mixin [VideoCameraConfiguration] ∅ in
  returns (putMixinSetting (platform := Sample.platform)
             "hubStreamingMode" (Str "Dynamic Bitrate") this) (λ first,
    returns (putMixinSetting (platform := Sample.platform)
               "hubStreamingMode" (Str "Disabled") first) (λ second,
      returns (putMixinSetting (platform := Sample.platform)
                 "hubStreamingMode" (Str "Disabled") this) (λ alone,
        storage second = storage alone))).
Proof.
  intros this.
  apply (last_write_wins (platform := Sample.platform) this); [reflexivity|..].
  all: intros [[Hkey _]|[Hkey _]]; discriminate Hkey.
Defined.

Lemma write_videoDecoderArguments_witness :
  returns (putMixinSetting (platform := Sample.platform)
             "videoDecoderArguments" (Str "auto") (Sample.mixin [] ∅))
    (λ after, getItem "videoDecoderArguments" (storage after) = Some "-hwaccel auto")
  ∧ putMixinSetting (platform := Sample.platform)
      "videoDecoderArguments" (Str "constructor") (Sample.mixin [] ∅)
    = Thrown.
Proof.
  split.
  - destruct (write_videoDecoderArguments (platform := Sample.platform)
                (Sample.mixin [] ∅) (Str "auto") eq_refl) as (Hpreset & _ & _ & _).
    apply (Hpreset ["-hwaccel"; "auto"]); [reflexivity|discriminate].
  - destruct (write_videoDecoderArguments (platform := Sample.platform)
                (Sample.mixin [] ∅) (Str "constructor") eq_refl) as (_ & _ & _ & Hthrows).
    apply Hthrows; [reflexivity|]. apply (bool_decide_unpack _). by vm_compute.
Defined.

(** * Further properties of the read path *)

Lemma find_setting_None k l : (∀ d, d ∈ l → key d ≠ k) → find_setting k l = None.
Proof.
  induction l as [|d l IH]; [done|]. intros Hnone. simpl. case_decide as Hkey.
  - destruct (Hnone d); [by left|done].
  - apply IH. intros d' Hd'. apply Hnone. by right.
Qed.

Lemma find_setting_is_Some k l : (∃ d, d ∈ l ∧ key d = k) → is_Some (find_setting k l).
Proof.
  intros (d & Hd & Hkey). destruct (find_setting k l) eqn:Hfind; [done|].
  exfalso. induction l as [|d' l IH]; [by apply elem_of_nil in Hd|].
  simpl in Hfind. case_decide; [done|].
  apply elem_of_cons in Hd as [->|Hd]; [done|by apply IH].
Qed.

(** Proves that a descriptor sits in the own list, once the conditions of
    its block are rewritten away. *)
Ltac in_own_settings :=
  unfold own_settings, channel_settings;
  repeat match goal with
  | H : _ = true |- _ => rewrite H
  | H : _ = false |- _ => rewrite H
  | H : probe_msos _ = _ |- _ => rewrite H
  end;
  rewrite ?elem_of_app, ?elem_of_cons; tauto.

Section ReadPath.
Context `{platform : Platform}.

Lemma hasMotionSensor_true this :
  hasMotionSensor this = true
  ↔ (∃ s, getItem "linkedMotionSensor" (storage this) = Some s ∧ s ≠ "")
    ∨ MotionSensor ∈ interfaces this.
Proof.
  unfold hasMotionSensor, includes, truthy. split.
  - intros Hmotion. apply orb_true_iff in Hmotion as [Hlinked|Hnative].
    + left. destruct (getItem _ _) as [[|c s]|]; try done. by eexists.
    + right. by apply bool_decide_eq_true in Hnative.
  - intros [(s & -> & Hs)|Hnative]; apply orb_true_iff.
    + left. by destruct s.
    + right. by apply bool_decide_eq_true.
Qed.

(** Whatever the device and the store, the derivation emits the motion
    sensor link, the read-only transcoding notice (always 'WARNING'), the
    extra-data toggle and the streaming-transcode toggle; and it emits
    exactly one of the three-way selector 'hubStreamingMode' (with native
    stream configuration) and the toggle 'transcodeStreamingHub'
    (without). *)
Theorem fixed_descriptors this :
  let found k := find_setting k (own_settings this) in
  found "linkedMotionSensor" = Some (linkedMotionSensor_setting this)
  ∧ (∃ d, found "transcodingNotices" = Some d
          ∧ value d = JsStr "WARNING" ∧ readonly d = true)
  ∧ found "needsExtraData" = Some (needsExtraData_setting (storage this))
  ∧ found "transcodeStreaming" = Some (transcodeStreaming_setting (storage this))
  ∧ (VideoCameraConfiguration ∈ interfaces this →
     found "hubStreamingMode" = Some (hubStreamingMode_setting (storage this))
     ∧ found "transcodeStreamingHub" = None)
  ∧ (VideoCameraConfiguration ∉ interfaces this →
     found "hubStreamingMode" = None
     ∧ found "transcodeStreamingHub" = Some (transcodeStreamingHub_setting (storage this))).
Proof.
  intros found. subst found. repeat split.
  - apply found_by_key; [in_own_settings|done].
  - exists transcodingNotices_setting. split; [|done].
    apply found_by_key; [in_own_settings|done].
  - apply found_by_key; [in_own_settings|done].
  - apply found_by_key; [in_own_settings|done].
  - apply found_by_key; [|done].
    assert (includes (interfaces this) VideoCameraConfiguration = true)
      by by apply bool_decide_eq_true.
    in_own_settings.
  - apply find_setting_None. intros d Hd Hkey. which_setting Hd Hkey.
    by match goal with H : includes _ _ = false |- _ => apply bool_decide_eq_false in H end.
  - apply find_setting_None. intros d Hd Hkey. which_setting Hd Hkey.
    by match goal with H : includes _ _ = true |- _ => apply bool_decide_eq_true in H end.
  - apply found_by_key; [|done].
    assert (includes (interfaces this) VideoCameraConfiguration = false)
      by by apply bool_decide_eq_false.
    in_own_settings.
Qed.

(** The capability-gated toggles: 'detectAudio' is emitted exactly for an
    audio sensor, 'statusIndicator' exactly for a device with on/off
    control, and 'transcodeRecording' exactly when a motion sensor is
    linked (a non-empty 'linkedMotionSensor' entry) or the device is one. *)
Theorem gated_toggles this :
  let found k := find_setting k (own_settings this) in
  (is_Some (found "detectAudio") ↔ AudioSensor ∈ interfaces this)
  ∧ (is_Some (found "statusIndicator") ↔ OnOff ∈ interfaces this)
  ∧ (is_Some (found "transcodeRecording")
     ↔ (∃ s, getItem "linkedMotionSensor" (storage this) = Some s ∧ s ≠ "")
       ∨ MotionSensor ∈ interfaces this).
Proof.
  intros found. subst found. repeat split.
  - intros [d Hfind]. apply find_setting_Some in Hfind as [Hd Hkey].
    which_setting Hd Hkey.
    by match goal with H : includes _ AudioSensor = true |- _ =>
         apply bool_decide_eq_true in H end.
  - intros Haudio. apply find_setting_is_Some.
    exists (detectAudio_setting (storage this)). split; [|done].
    assert (includes (interfaces this) AudioSensor = true) by by apply bool_decide_eq_true.
    in_own_settings.
  - intros [d Hfind]. apply find_setting_Some in Hfind as [Hd Hkey].
    which_setting Hd Hkey.
    by match goal with H : includes _ OnOff = true |- _ =>
         apply bool_decide_eq_true in H end.
  - intros Hswitch. apply find_setting_is_Some.
    exists (statusIndicator_setting (storage this)). split; [|done].
    assert (includes (interfaces this) OnOff = true) by by apply bool_decide_eq_true.
    in_own_settings.
  - intros [d Hfind]. apply find_setting_Some in Hfind as [Hd Hkey].
    which_setting Hd Hkey. by apply hasMotionSensor_true.
  - intros Hmotion. apply hasMotionSensor_true in Hmotion.
    apply find_setting_is_Some.
    exists (transcodeRecording_setting (storage this)). split; [|done].
    in_own_settings.
Qed.

(** The two combo boxes 'videoDecoderArguments' and 'h264EncoderArguments'
    are emitted together, exactly when 'transcodeStreaming' or
    'transcodeStreamingHub' is "true", or 'transcodeRecording' is "true"
    and there is a motion sensor; a recording transcode without a motion
    sensor does not show them.  Their choices are the catalog names. *)
Theorem combo_boxes_shown this :
  let found k := find_setting k (own_settings this) in
  let st := storage this in
  let shown :=
    getItem "transcodeStreaming" st = Some "true"
    ∨ getItem "transcodeStreamingHub" st = Some "true"
    ∨ (hasMotionSensor this = true ∧ getItem "transcodeRecording" st = Some "true") in
  (shown →
   found "videoDecoderArguments" = Some (videoDecoderArguments_setting getH264DecoderArgs st)
   ∧ found "h264EncoderArguments" = Some (h264EncoderArguments_setting getH264EncoderArgs st)
   ∧ choices (videoDecoderArguments_setting getH264DecoderArgs st)
     = Some (fst <$> getH264DecoderArgs)
   ∧ choices (h264EncoderArguments_setting getH264EncoderArgs st)
     = Some (fst <$> getH264EncoderArgs))
  ∧ (¬ shown → found "videoDecoderArguments" = None ∧ found "h264EncoderArguments" = None).
Proof.
  intros found st shown. subst found.
  assert (Hshown : showTranscodeArgs this = true ↔ shown).
  { subst shown st. unfold showTranscodeArgs, is_true.
    destruct (hasMotionSensor this);
      rewrite ?orb_true_iff, !bool_decide_eq_true; intuition congruence. }
  split.
  - intros Hyes. apply Hshown in Hyes.
    split; [apply found_by_key; [in_own_settings|done]|].
    split; [apply found_by_key; [in_own_settings|done]|]. done.
  - intros Hno.
    split; apply find_setting_None; intros d Hd Hkey; which_setting Hd Hkey.
    all: by destruct Hno; apply Hshown.
Qed.

(** The own descriptors come first and in the fixed order of the source,
    each key at most once, and the descriptors of the superclass follow
    them unchanged. *)
Theorem descriptors_in_order this inherited :
  super_getMixinSettings this = Returned inherited →
  ∃ own, getMixinSettings this = Returned (own ++ inherited)
         ∧ key <$> own `sublist_of` camera_keys.
Proof.
  intros Hsuper. exists (own_settings this).
  split; [by apply getMixinSettings_returns|apply own_keys_sublist].
Qed.

(** The channel selectors: with fewer than two channels none of
    'streamingChannel', 'streamingChannelHub' and 'recordingChannel' is
    emitted; with two or more the first two are, 'recordingChannel' is
    exactly when there is a motion sensor, each offers the channel names in
    order as its choices, and each shows its stored entry or, when that is
    absent or empty, the name of the first channel. *)
Theorem channel_selectors this :
  let found k := find_setting k (own_settings this) in
  let st := storage this in
  let msos := default [] (probe_msos (getDeviceById (id this))) in
  (length msos ≤ 1 →
   found "streamingChannel" = None ∧ found "streamingChannelHub" = None
   ∧ found "recordingChannel" = None)%nat
  ∧ (∀ first, 1 < length msos → head msos = Some first →
     (∀ k, k = "streamingChannel" ∨ k = "streamingChannelHub"
           ∨ (k = "recordingChannel" ∧ hasMotionSensor this = true) →
        ∃ d, found k = Some d
             ∧ choices d = Some (name <$> msos)
             ∧ value d = JsStr (or_else (getItem k st) (name first)))
     ∧ (hasMotionSensor this = false → found "recordingChannel" = None))%nat.
Proof.
  intros found st msos. subst found st msos. split.
  - intros Hfew.
    repeat split; apply find_setting_None; intros d Hd Hkey; which_setting Hd Hkey.
    all: simpl in Hfew; lia.
  - intros first Hmany Hfirst.
    destruct (probe_msos _) as [[|first' [|second rest]]|] eqn:Hmsos;
      simpl in Hmany, Hfirst; try lia.
    injection Hfirst as ->. split.
    + intros k [->|[->|[-> Hmotion]]].
      * exists (streamingChannel_setting (storage this) first (first :: second :: rest)).
        split; [apply found_by_key; [in_own_settings|done]|done].
      * exists (streamingChannelHub_setting (storage this) first (first :: second :: rest)).
        split; [apply found_by_key; [in_own_settings|done]|done].
      * exists (recordingChannel_setting (storage this) first (first :: second :: rest)).
        split; [apply found_by_key; [in_own_settings|done]|done].
    + intros Hmotion. apply find_setting_None. intros d Hd Hkey.
      which_setting Hd Hkey. congruence.
Qed.

(** Probe failures degrade instead of failing the derivation: when the
    device cannot be found, or the channel probe throws or returns
    nothing, no channel selector is emitted; when the device cannot be
    found or the object type probe throws, no object detection descriptor
    is emitted, even for a device listed as an object detector. *)
Theorem failed_probes_degrade this :
  let rd := getDeviceById (id this) in
  ((rd = None ∨ ∃ device, rd = Some device
      ∧ (getVideoStreamOptions device = Thrown
         ∨ getVideoStreamOptions device = Returned None)) →
   ∀ d, d ∈ own_settings this →
        key d ∉ ["streamingChannel"; "streamingChannelHub"; "recordingChannel"])
  ∧ ((rd = None ∨ ∃ device, rd = Some device ∧ getObjectTypes device = Thrown) →
     ∀ d, d ∈ own_settings this →
          key d ∉ ["objectDetectionContactSensors"; "objectDetectionContactSensorTimeout"]).
Proof.
  intros rd. subst rd. split.
  - intros Hfail d Hd Hkey.
    assert (Hmsos : probe_msos (getDeviceById (id this)) = Some []
                    ∨ probe_msos (getDeviceById (id this)) = None).
    { destruct Hfail as [->|(device & -> & [Hprobe|Hprobe])];
        unfold probe_msos; rewrite ?Hprobe; simpl; tauto. }
    rewrite !elem_of_cons in Hkey.
    destruct Hkey as [Hkey|[Hkey|[Hkey|Hkey]]]; [..|by apply elem_of_nil in Hkey].
    all: which_setting Hd Hkey.
    all: destruct Hmsos; congruence.
  - intros Hfail d Hd Hkey.
    assert (Hblock : ∀ st, objectDetection_settings (getDeviceById (id this)) st = []).
    { intros st. destruct Hfail as [->|(device & -> & Hprobe)];
        unfold objectDetection_settings; by rewrite ?Hprobe. }
    rewrite !elem_of_cons in Hkey.
    destruct Hkey as [Hkey|[Hkey|Hkey]]; [..|by apply elem_of_nil in Hkey].
    all: which_setting Hd Hkey.
    all: match goal with
         | H : ∀ st, objectDetection_settings _ st = _ :: _ |- _ =>
             specialize (H ∅); by rewrite Hblock in H
         end.
Qed.
End ReadPath.

(** * Reads after writes *)

Section ReadAfterWrite.
Context `{platform : Platform}.

(** Two instances with the same identifier and interfaces whose stores
    agree on the keys the derivation reads have the same descriptors. *)
Lemma own_settings_agree this this' :
  id this' = id this → interfaces this' = interfaces this →
  (∀ k, k ∈ read_keys → getItem k (storage this') = getItem k (storage this)) →
  own_settings this' = own_settings this.
Proof.
  intros Hid Hinterfaces Hagree.
  assert (Hkeys : Forall (λ k, getItem k (storage this') = getItem k (storage this)) read_keys)
    by by apply Forall_forall.
  unfold read_keys in Hkeys.
  repeat match type of Hkeys with
  | Forall _ (_ :: _) => apply Forall_cons in Hkeys as [? Hkeys]
  end.
  cbv beta zeta delta
    [ own_settings channel_settings hasMotionSensor showTranscodeArgs
      streamingChannel_setting streamingChannelHub_setting recordingChannel_setting
      channel_setting linkedMotionSensor_setting needsExtraData_setting
      transcodeRecording_setting transcodeStreaming_setting
      transcodeStreamingHub_setting detectAudio_setting toggle_setting
      hubStreamingMode_setting hubStreamingMode_value
      videoDecoderArguments_setting h264EncoderArguments_setting arguments_setting
      objectDetection_settings objectDetectionContactSensors_setting
      objectDetectionContactSensors_value objectDetectionContactSensorTimeout_setting
      statusIndicator_setting ].
  rewrite Hid, Hinterfaces.
  repeat match goal with
  | H : getItem ?k (storage this') = _ |- _ => rewrite !H; clear H
  end.
  reflexivity.
Qed.

(** The derivation reads the store at sixteen keys and nowhere else:
    whatever else the store holds, and whatever is changed there, the
    descriptors stay the same. *)
Theorem derivation_reads_listed_keys this (st' : gmap string string) :
  (∀ k, k ∈ read_keys → getItem k st' = getItem k (storage this)) →
  own_settings (with_storage (λ _, st') this) = own_settings this.
Proof. intros Hagree. by apply own_settings_agree. Qed.

(** A write to a key the derivation does not read, such as the read-only
    'transcodingNotices', returns and changes no descriptor: what is
    written there is stored and never shown. *)
Theorem unread_key_write_not_shown this k v :
  storageSettings_settings k = false →
  k ∉ read_keys →
  returns (putMixinSetting k v this) (λ after,
    own_settings after = own_settings this
    ∧ getItem k (storage after) = Some (toString v)).
Proof.
  intros Hown Hunread.
  assert (Hplain : ∀ k', k' ∈ read_keys → k' ≠ k) by (intros k' Hk' ->; by apply Hunread).
  assert (Hlisted : ∀ k', k' ∈ read_keys → k ≠ k') by (intros k' Hk' ->; by apply Hunread).
  assert (k ≠ "hubStreamingMode" ∧ k ≠ "videoDecoderArguments"
          ∧ k ≠ "h264EncoderArguments" ∧ k ≠ "objectDetectionContactSensors")
    as (? & ? & ? & ?).
  { repeat split; apply Hlisted; unfold read_keys; rewrite !elem_of_cons; tauto. }
  rewrite putMixinSetting_plain by done. apply returns_Returned.
  destruct (put_id_interfaces this k v) as [Hid Hinterfaces]. split.
  - apply own_settings_agree; [done..|].
    intros k' Hk'. apply store_other_key; [done|by apply Hplain].
  - rewrite store_and_notify_storage by done. store.
Qed.
End ReadAfterWrite.

(** Proves that a descriptor sits in the own list of the instance [after],
    which has the interfaces and identifier of [before]. *)
Ltac in_own_settings_after before after :=
  unfold own_settings, channel_settings;
  change (interfaces after) with (interfaces before);
  change (id after) with (id before);
  repeat match goal with
  | H : _ = true |- _ => rewrite H
  | H : _ = false |- _ => rewrite H
  | H : hasMotionSensor after = _ |- _ => rewrite H
  | H : probe_msos _ = _ |- _ => rewrite H
  | H : ∀ st, objectDetection_settings _ st = _ |- _ => rewrite H
  end;
  rewrite ?elem_of_app, ?elem_of_cons; tauto.

Section ToggleRoundTrip.
Context `{platform : Platform}.

Lemma toggle_setting_value title group k description st (b : bool) :
  value (toggle_setting title group k description (setItem k (bool_toString b) st))
  = JsStr (bool_toString b).
Proof.
  unfold toggle_setting; simpl. rewrite getItem_setItem. by destruct b.
Qed.

(** A boolean written to a toggle is shown again: for each of
    'needsExtraData', 'transcodeRecording', 'transcodeStreaming',
    'transcodeStreamingHub' and 'detectAudio' whose descriptor is emitted,
    the write returns and the descriptor shows "true" or "false" after the
    boolean was written; 'statusIndicator' shows the boolean itself. *)
Theorem toggle_round_trip this k (b : bool) :
  storageSettings_settings k = false →
  is_Some (find_setting k (own_settings this)) →
  let shown x :=
    returns (putMixinSetting k (Bool b) this) (λ after,
      value <$> find_setting k (own_settings after) = Some x) in
  (k ∈ [ "needsExtraData"; "transcodeRecording"; "transcodeStreaming";
         "transcodeStreamingHub"; "detectAudio" ] →
   shown (JsStr (bool_toString b)))
  ∧ (k = "statusIndicator" → shown (JsBool b)).
Proof.
  intros Hown [d Hfind] shown. subst shown. cbv beta.
  apply find_setting_Some in Hfind as [Hd Hkey].
  assert (Hplain : k ∈ [ "needsExtraData"; "transcodeRecording"; "transcodeStreaming";
                         "transcodeStreamingHub"; "detectAudio"; "statusIndicator" ] →
                   putMixinSetting k (Bool b) this
                   = Returned (store_and_notify k (Bool b) this)
                   ∧ storage (store_and_notify k (Bool b) this)
                     = setItem k (bool_toString b) (storage this)
                   ∧ getItem "linkedMotionSensor" (storage (store_and_notify k (Bool b) this))
                     = getItem "linkedMotionSensor" (storage this)).
  { intros Hk. rewrite !elem_of_cons in Hk.
    destruct Hk as [->|[->|[->|[->|[->|[->|Hk]]]]]]; [..|by apply elem_of_nil in Hk].
    all: rewrite putMixinSetting_plain, store_and_notify_storage by done.
    all: repeat split; store. }
  split.
  - intros Hk. destruct Hplain as (-> & Hst' & Hlinked).
    { rewrite !elem_of_cons in Hk. rewrite !elem_of_cons. tauto. }
    apply returns_Returned. rewrite own_settings_put.
    set (this' := with_storage _ this).
    assert (Hst : storage this' = setItem k (bool_toString b) (storage this)) by done.
    assert (Hmotion : hasMotionSensor this' = hasMotionSensor this)
      by by apply hasMotionSensor_ext.
    rewrite !elem_of_cons in Hk.
    destruct Hk as [->|[->|[->|[->|[->|Hk]]]]]; [..|by apply elem_of_nil in Hk].
    all: which_setting Hd Hkey.
    + rewrite (found_by_key this' (needsExtraData_setting (storage this')) _);
        [|in_own_settings_after this this'|done].
      rewrite Hst. exact (f_equal Some (toggle_setting_value _ _ _ _ _ _)).
    + rewrite (found_by_key this' (transcodeRecording_setting (storage this')) _);
        [|rewrite <- Hmotion in *; in_own_settings_after this this'|done].
      rewrite Hst. exact (f_equal Some (toggle_setting_value _ _ _ _ _ _)).
    + rewrite (found_by_key this' (transcodeStreaming_setting (storage this')) _);
        [|in_own_settings_after this this'|done].
      rewrite Hst. exact (f_equal Some (toggle_setting_value _ _ _ _ _ _)).
    + rewrite (found_by_key this' (transcodeStreamingHub_setting (storage this')) _);
        [|in_own_settings_after this this'|done].
      rewrite Hst. exact (f_equal Some (toggle_setting_value _ _ _ _ _ _)).
    + rewrite (found_by_key this' (detectAudio_setting (storage this')) _);
        [|in_own_settings_after this this'|done].
      rewrite Hst. exact (f_equal Some (toggle_setting_value _ _ _ _ _ _)).
  - intros ->. destruct Hplain as (-> & Hst' & _); [rewrite !elem_of_cons; tauto|].
    apply returns_Returned. rewrite own_settings_put.
    set (this' := with_storage _ this).
    assert (Hst : storage this' = setItem "statusIndicator" (bool_toString b) (storage this))
      by done.
    which_setting Hd Hkey.
    rewrite (found_by_key this' (statusIndicator_setting (storage this')) _);
      [|in_own_settings_after this this'|done].
    rewrite Hst. simpl. rewrite getItem_setItem. by destruct b.
Qed.
End ToggleRoundTrip.

(** * Object detection, its timeout and the motion sensor link *)

Lemma nonempty_pretty_N_go x s : nonempty s = true → nonempty (pretty_N_go x s) = true.
Proof.
  revert s. induction (N.lt_wf_0 x) as [x _ IH]. intros s Hs.
  destruct (decide (x = 0%N)) as [->|Hx]; [by rewrite pretty_N_go_0|].
  rewrite pretty_N_go_step by lia. apply IH; [|done].
  apply N.div_lt; lia.
Qed.

Lemma nonempty_pretty_N (x : N) : nonempty (pretty x) = true.
Proof.
  unfold pretty, pretty_N. case_decide as Hx; [done|].
  rewrite pretty_N_go_step by lia. by apply nonempty_pretty_N_go.
Qed.

(** The decimal form of an integer is never the empty string. *)
Lemma nonempty_pretty_Z (n : Z) : nonempty (pretty n) = true.
Proof.
  destruct n as [|p|p]; [done|apply (nonempty_pretty_N (N.pos p))|].
  change (pretty (Z.neg p)) with ("-" +:+ pretty (N.pos p)).
  apply nonempty_append_r, nonempty_pretty_N.
Qed.

Section ObjectDetection.
Context `{platform : Platform}.

(** When the object detection block is not empty, the device answered the
    probe with a list of classes, and the block offers those of them that
    are not "motion". *)
Lemma objectDetection_settings_inv realDevice st d :
  d ∈ objectDetection_settings realDevice st →
  ∃ device types reported,
    realDevice = Some device
    ∧ getObjectTypes device = Returned (Some types)
    ∧ classes types = Some reported
    ∧ filter (λ c, c ≠ "motion") reported ≠ []
    ∧ objectDetection_settings realDevice st
      = [ objectDetectionContactSensors_setting (filter (λ c, c ≠ "motion") reported) st;
          objectDetectionContactSensorTimeout_setting st ].
Proof.
  intros Hd. destruct realDevice as [device|];
    [|by apply elem_of_nil in Hd].
  destruct (getObjectTypes device) as [[types|]|] eqn:Htypes;
    [|unfold objectDetection_settings in Hd; rewrite Htypes in Hd;
      by apply elem_of_nil in Hd..].
  destruct (classes types) as [reported|] eqn:Hclasses.
  - destruct (decide (filter (λ c, c ≠ "motion") reported = [])) as [Hnone|Hsome].
    + unfold objectDetection_settings in Hd. rewrite Htypes in Hd. cbn in Hd.
      rewrite Hclasses in Hd. cbn in Hd. rewrite Hnone in Hd.
      by apply elem_of_nil in Hd.
    + exists device, types, reported. repeat split; try done.
      by apply (objectDetection_settings_reported device types).
  - unfold objectDetection_settings in Hd. rewrite Htypes in Hd. cbn in Hd.
    rewrite Hclasses in Hd. by apply elem_of_nil in Hd.
Qed.

(** The multi-select 'objectDetectionContactSensors' is emitted only for a
    device listed as an object detector whose probe returned classes; its
    choices are the reported classes without "motion", in order, and they
    are not empty; and the timeout descriptor is emitted with it. *)
Theorem object_detection_choices this d :
  d ∈ own_settings this →
  key d = "objectDetectionContactSensors" →
  ObjectDetector ∈ interfaces this
  ∧ multiple d = true
  ∧ is_Some (find_setting "objectDetectionContactSensorTimeout" (own_settings this))
  ∧ ∃ device types reported,
      getDeviceById (id this) = Some device
      ∧ getObjectTypes device = Returned (Some types)
      ∧ classes types = Some reported
      ∧ choices d = Some (filter (λ c, c ≠ "motion") reported)
      ∧ filter (λ c, c ≠ "motion") reported ≠ []
      ∧ "motion" ∉ filter (λ c, c ≠ "motion") reported.
Proof.
  intros Hd Hkey. pose proof Hd as Hown. which_setting Hd Hkey.
  match goal with
  | Hdetector : includes _ ObjectDetector = true,
    Hblock : ∀ st, objectDetection_settings _ st = _ |- _ =>
      apply bool_decide_eq_true in Hdetector;
      pose proof (Hblock (storage this)) as Hhere;
      destruct (objectDetection_settings_inv (getDeviceById (id this)) (storage this)
                  (objectDetectionContactSensorTimeout_setting (storage this)))
        as (device & types & reported & Hdevice & Htypes & Hclasses & Hsome & Hthere);
        [rewrite Hhere, !elem_of_cons; tauto|];
      rewrite Hhere in Hthere; injection Hthere as Hsame
  end.
  split; [done|]. split; [done|]. split.
  - apply find_setting_is_Some.
    exists (objectDetectionContactSensorTimeout_setting (storage this)). split; [|done].
    assert (includes (interfaces this) ObjectDetector = true) by by apply bool_decide_eq_true.
    in_own_settings_after this this.
  - exists device, types, reported. repeat split; try done.
    + simpl. by f_equal.
    + intros Hmotion. by apply list_elem_of_filter in Hmotion as [? _].
Qed.

(** What the multi-select shows for a stored text that is valid JSON: a
    stored array is shown element for element, whether or not the elements
    are among the choices; null, a boolean, a number or an object is shown
    as the empty sequence, like a text that does not parse. *)
Theorem stored_JSON_shown this d text parsed :
  d ∈ own_settings this →
  key d = "objectDetectionContactSensors" →
  getItem "objectDetectionContactSensors" (storage this) = Some text →
  JSON_parse text = Returned parsed →
  (∀ elements, parsed = JsArr elements → value d = JsArr elements)
  ∧ (parsed = JsNull ∨ (∃ b, parsed = JsBool b) ∨ (∃ n, parsed = JsNum n)
     ∨ (∃ fields, parsed = JsObj fields) →
     value d = JsArr []).
Proof.
  intros Hd Hkey Hstored Hparse.
  destruct (objectDetectionContactSensors_inv this d Hd Hkey) as (cs & _ & ->).
  simpl. unfold objectDetectionContactSensors_value. rewrite Hstored. simpl.
  rewrite Hparse. split.
  - by intros elements ->.
  - by intros [->|[[b ->]|[[n ->]|[fields ->]]]].
Qed.

(** The timeout descriptor shows the stored entry as a string, or the
    number 60 when the entry is absent or empty; a safe integer written to
    it is shown again in its decimal form, as a string. *)
Theorem detection_timeout this :
  let k := "objectDetectionContactSensorTimeout" in
  (∀ d, d ∈ own_settings this → key d = k →
     (getItem k (storage this) = None ∨ getItem k (storage this) = Some "" →
      value d = JsNum 60)
     ∧ (∀ s, getItem k (storage this) = Some s → s ≠ "" → value d = JsStr s))
  ∧ (∀ n safe, storageSettings_settings k = false →
               is_Some (find_setting k (own_settings this)) →
               returns (putMixinSetting k (Number n safe) this) (λ after,
                 value <$> find_setting k (own_settings after)
                 = Some (JsStr (pretty n)))).
Proof.
  intros k. subst k. split.
  - intros d Hd Hkey. which_setting Hd Hkey. simpl. split.
    + by intros [->| ->].
    + intros s -> Hs. by destruct s.
  - intros n safe Hown [d Hfind].
    apply find_setting_Some in Hfind as [Hd Hkey].
    rewrite putMixinSetting_plain by done. apply returns_Returned.
    rewrite own_settings_put.
    set (this' := with_storage _ this).
    which_setting Hd Hkey.
    rewrite (found_by_key this' (objectDetectionContactSensorTimeout_setting (storage this')) _);
      [|in_own_settings_after this this'|done].
    subst this'. rewrite storage_with_storage, store_and_notify_storage by done.
    simpl. rewrite getItem_setItem. simpl.
    by rewrite nonempty_pretty_Z.
Qed.

(** The motion sensor link shows the device's own identifier while nothing
    (or the empty string) is stored, and carries the placeholder 'None'
    exactly when the device is no motion sensor itself.  Once a non-empty
    identifier is written, which returns, the link shows it, and the
    recording-transcode toggle is emitted from then on. *)
Theorem linked_motion_sensor this :
  let k := "linkedMotionSensor" in
  (∃ d, find_setting k (own_settings this) = Some d
        ∧ (getItem k (storage this) = None ∨ getItem k (storage this) = Some "" →
           value d = JsStr (id this))
        ∧ (placeholder d = Some "None" ↔ MotionSensor ∉ interfaces this))
  ∧ (∀ s, storageSettings_settings k = false → s ≠ "" →
          returns (putMixinSetting k (Str s) this) (λ after,
            value <$> find_setting k (own_settings after) = Some (JsStr s)
            ∧ is_Some (find_setting "transcodeRecording" (own_settings after)))).
Proof.
  intros k. subst k. split.
  - exists (linkedMotionSensor_setting this).
    split; [apply found_by_key; [in_own_settings|done]|]. split.
    + by intros [Hnone|Hempty]; simpl; unfold or_else; rewrite ?Hnone, ?Hempty.
    + simpl. unfold includes. by case_bool_decide; split.
  - intros s Hown Hs.
    rewrite putMixinSetting_plain by done. apply returns_Returned.
    rewrite own_settings_put.
    set (this' := with_storage _ this).
    assert (Hst : storage this' = setItem "linkedMotionSensor" s (storage this)).
    { subst this'. by rewrite storage_with_storage, store_and_notify_storage. }
    assert (Hmotion : hasMotionSensor this' = true).
    { apply hasMotionSensor_true. left. exists s. by rewrite Hst, getItem_setItem. }
    split.
    + rewrite (found_by_key this' (linkedMotionSensor_setting this') _);
        [|in_own_settings_after this this'|done].
      change (value <$> Some (linkedMotionSensor_setting this'))
        with (Some (JsStr (or_else (getItem "linkedMotionSensor" (storage this'))
                             (id this')))).
      rewrite Hst, getItem_setItem. by destruct s.
    + apply find_setting_is_Some.
      exists (transcodeRecording_setting (storage this')). split; [|done].
      in_own_settings_after this this'.
Qed.
End ObjectDetection.

(** * The further properties on the sample platform *)

Lemma fixed_descriptors_witness :
  let this := Sample.mixin [VideoCameraConfiguration] ∅ in
  VideoCameraConfiguration ∈ interfaces this
  ∧ find_setting "hubStreamingMode" (own_settings (platform := Sample.platform) this)
    = Some (hubStreamingMode_setting (storage this))
  ∧ find_setting "transcodeStreamingHub" (own_settings (platform := Sample.platform) this)
    = None.
Proof.
  intros this.
  assert (Hnative : VideoCameraConfiguration ∈ interfaces this)
    by (apply (bool_decide_unpack _); by vm_compute).
  split; [exact Hnative|].
  destruct (fixed_descriptors (platform := Sample.platform) this)
    as (_ & _ & _ & _ & Hselector & _).
  exact (Hselector Hnative).
Defined.

Lemma gated_toggles_witness :
  let this := Sample.mixin [AudioSensor] ∅ in
  AudioSensor ∈ interfaces this
  ∧ is_Some (find_setting "detectAudio" (own_settings (platform := Sample.platform) this)).
Proof.
  intros this.
  assert (Haudio : AudioSensor ∈ interfaces this)
    by (apply (bool_decide_unpack _); by vm_compute).
  split; [exact Haudio|].
  destruct (gated_toggles (platform := Sample.platform) this) as (Hgate & _ & _).
  apply Hgate, Haudio.
Defined.

Lemma combo_boxes_shown_witness :
  let this := Sample.mixin [] {[ "transcodeRecording" := "true" ]} in
  find_setting "videoDecoderArguments" (own_settings (platform := Sample.platform) this) = None
  ∧ find_setting "h264EncoderArguments" (own_settings (platform := Sample.platform) this) = None.
Proof.
  intros this.
  destruct (combo_boxes_shown (platform := Sample.platform) this) as (_ & Hhidden).
  apply Hhidden. intros [Hstreaming|[Hhub|[Hmotion _]]]; by vm_compute in *.
Defined.

Lemma descriptors_in_order_witness :
  let this := Sample.mixin [MotionSensor; ObjectDetector] ∅ in
  ∃ own, getMixinSettings (platform := Sample.platform) this
         = Returned (own ++ [Sample.standalone_setting (storage this)])
         ∧ key <$> own `sublist_of` camera_keys.
Proof.
  intros this.
  apply (descriptors_in_order (platform := Sample.platform) this). reflexivity.
Defined.

Lemma channel_selectors_witness :
  let this := Sample.mixin [] {[ "streamingChannelHub" := "Sub" ]} in
  ∃ d, find_setting "streamingChannelHub" (own_settings (platform := Sample.platform) this)
       = Some d
       ∧ choices d = Some ["Main"; "Sub"]
       ∧ value d = JsStr "Sub".
Proof.
  intros this.
  destruct (channel_selectors (platform := Sample.platform) this) as (_ & Hmany).
  destruct (Hmany {| name := "Main" |}) as (Hfound & _);
    [vm_compute; lia|reflexivity|].
  apply (Hfound "streamingChannelHub"). right; left; reflexivity.
Defined.

Lemma failed_probes_degrade_witness :
  let deviceless : Platform :=
    {| getDeviceById := λ _, None;
       getH264DecoderArgs := Sample.decoders;
       getH264EncoderArgs := Sample.encoders;
       JSON_parse := Sample.parse;
       JSON_stringify := Sample.stringify;
       storageSettings_settings := λ _, false;
       super_getMixinSettings := λ _, Returned [];
       super_putMixinSetting := λ _ _ this, Returned this |} in
  let this := Sample.mixin [ObjectDetector] ∅ in
  getDeviceById (Platform := deviceless) (id this) = None
  ∧ find_setting "objectDetectionContactSensors" (own_settings (platform := deviceless) this)
    = None.
Proof.
  intros deviceless this. split; [reflexivity|].
  destruct (failed_probes_degrade (platform := deviceless) this) as (_ & Hdetection).
  apply find_setting_None. intros d Hd Hkey.
  apply (Hdetection (or_introl eq_refl) d Hd). rewrite Hkey. by left.
Defined.

Lemma derivation_reads_listed_keys_witness :
  let this := Sample.mixin [OnOff] {[ "statusIndicator" := "true" ]} in
  own_settings (platform := Sample.platform)
    (with_storage (λ _, {[ "statusIndicator" := "true"; "qrCode" := "X-HM" ]}) this)
  = own_settings (platform := Sample.platform) this.
Proof.
  intros this.
  apply (derivation_reads_listed_keys (platform := Sample.platform) this).
  intros k Hk. unfold read_keys in Hk.
  repeat (apply elem_of_cons in Hk as [->|Hk]); [by vm_compute..|by apply elem_of_nil in Hk].
Defined.

Lemma unread_key_write_not_shown_witness :
  let this := Sample.mixin [] ∅ in
  returns (putMixinSetting (platform := Sample.platform)
             "transcodingNotices" (Number (-7) I) this)
    (λ after,
      own_settings (platform := Sample.platform) after
      = own_settings (platform := Sample.platform) this
      ∧ getItem "transcodingNotices" (storage after) = Some "-7").
Proof.
  intros this.
  apply (unread_key_write_not_shown (platform := Sample.platform) this
           "transcodingNotices" (Number (-7) I)); [reflexivity|].
  apply (bool_decide_unpack _). by vm_compute.
Defined.

Lemma toggle_round_trip_witness :
  let this := Sample.mixin [MotionSensor] ∅ in
  returns (putMixinSetting (platform := Sample.platform)
             "transcodeRecording" (Bool true) this)
    (λ after,
      value <$> find_setting "transcodeRecording"
                  (own_settings (platform := Sample.platform) after)
      = Some (JsStr "true")).
Proof.
  intros this.
  destruct (toggle_round_trip (platform := Sample.platform) this "transcodeRecording" true)
    as (Htoggle & _); [reflexivity|by eexists|].
  apply Htoggle. apply (bool_decide_unpack _). by vm_compute.
Defined.

Lemma object_detection_choices_witness :
  let this := Sample.mixin [ObjectDetector] ∅ in
  let d := objectDetectionContactSensors_setting (platform := Sample.platform)
             ["person"; "car"] ∅ in
  d ∈ own_settings (platform := Sample.platform) this
  ∧ ObjectDetector ∈ interfaces this
  ∧ multiple d = true.
Proof.
  intros this d.
  assert (Hd : d ∈ own_settings (platform := Sample.platform) this)
    by exact (proj1 (find_setting_Some "objectDetectionContactSensors"
                       (own_settings (platform := Sample.platform) this) d eq_refl)).
  split; [exact Hd|].
  destruct (object_detection_choices (platform := Sample.platform) this d Hd eq_refl)
    as (Hdetector & Hmultiple & _).
  by split.
Defined.

Lemma stored_JSON_shown_witness :
  let this := Sample.mixin [ObjectDetector]
    {[ "objectDetectionContactSensors" := Sample.person_json ]} in
  let d := objectDetectionContactSensors_setting (platform := Sample.platform)
             ["person"; "car"] (storage this) in
  d ∈ own_settings (platform := Sample.platform) this
  ∧ value d = JsArr [JsStr "person"].
Proof.
  intros this d.
  assert (Hd : d ∈ own_settings (platform := Sample.platform) this)
    by exact (proj1 (find_setting_Some "objectDetectionContactSensors"
                       (own_settings (platform := Sample.platform) this) d eq_refl)).
  split; [exact Hd|].
  destruct (stored_JSON_shown (platform := Sample.platform) this d
              Sample.person_json (JsArr [JsStr "person"]) Hd eq_refl eq_refl eq_refl)
    as (Harray & _).
  by apply Harray.
Defined.

Lemma detection_timeout_witness :
  let this := Sample.mixin [ObjectDetector] ∅ in
  returns (putMixinSetting (platform := Sample.platform)
             "objectDetectionContactSensorTimeout" (Number 30 I) this)
    (λ after,
      value <$> find_setting "objectDetectionContactSensorTimeout"
                  (own_settings (platform := Sample.platform) after)
      = Some (JsStr "30")).
Proof.
  intros this.
  destruct (detection_timeout (platform := Sample.platform) this) as (_ & Hwritten).
  apply (Hwritten 30 I); [reflexivity|by eexists].
Defined.

Lemma linked_motion_sensor_witness :
  let this := Sample.mixin [] ∅ in
  returns (putMixinSetting (platform := Sample.platform)
             "linkedMotionSensor" (Str "17") this)
    (λ after,
      value <$> find_setting "linkedMotionSensor"
                  (own_settings (platform := Sample.platform) after)
      = Some (JsStr "17")
      ∧ is_Some (find_setting "transcodeRecording"
                   (own_settings (platform := Sample.platform) after))).
Proof.
  intros this.
  destruct (linked_motion_sensor (platform := Sample.platform) this) as (_ & Hwritten).
  apply (Hwritten "17"); [reflexivity|discriminate].
Defined.
